(** * kibctl: a shallow embedding of the Kibana dashboard client

    The two Go files of the program are embedded function by function:
    [client.go] in module [Client], [main.go] in module [Main].

    Go values are represented as follows.
    - [string] and [[]byte] are both Rocq [string]s (sequences of bytes); the
      conversions [string(b)] and [[]byte(s)] are the identity.
    - A Go [error] is represented by the text of its [Error()] method; a
      function returning [(T, error)] whose callers only look at the value
      when the error is nil becomes a function into [error + T]; a function
      that returns only an [error] becomes a function into [option error].
    - The packages the program imports (net/http, gjson, sjson,
      encoding/json) and the two places where the Go runtime leaves a choice
      (map iteration order, rune counting for padding) are the fields of the
      class [Runtime].  The program is embedded once, over an arbitrary
      [Runtime]; the module [Ref] gives an executable one, with a JSON
      reader written in Rocq, on which the closed examples run.
    - Input and output are explicit: a [World] holds the state of the remote
      server, the contents of standard input and the list of [event]s of the
      run so far (requests sent, standard input read, writes to standard
      output); an effectful function is a function in the monad [IO].
    - Calls to [c.Logger.Printf] only write diagnostics; they return nothing
      and no value of the program depends on them, so the embedding leaves
      them out, and with them the [Logger] field of [client], the type
      [cmdLogger] and the [verbose] flag.
    - The function [main] only declares the flags and the three actions for
      the command-line package; the actions [_import], [export] and [list]
      are embedded, each as a function of the package variables and the
      arguments. *)

From Stdlib Require Import String Ascii List ZArith Lia Bool.
From stdpp Require Import base gmap sets list strings pretty.

Set Warnings "-register-all,-clear-no-such-hyp".

Local Open Scope string_scope.

(** ** Text helpers *)

(** The double quote, the backslash and the line feed, built from their
    codes. *)
Definition dquote : string := String (ascii_of_nat 34) "".
Definition backslash : string := String (ascii_of_nat 92) "".
Definition newline : string := String (ascii_of_nat 10) "".

(** [quoted s] is what the format verb between two double quotes prints. *)
Definition quoted (s : string) : string := dquote +:+ s +:+ dquote.

Fixpoint string_prefixb (p s : string) : bool :=
  match p, s with
  | EmptyString, _ => true
  | String a p', String b s' => if Ascii.eqb a b then string_prefixb p' s' else false
  | String _ _, EmptyString => false
  end.

(** [p] occurs somewhere in [s]. *)
Fixpoint string_containsb (p s : string) : bool :=
  string_prefixb p s ||
  match s with
  | EmptyString => false
  | String _ rest => string_containsb p rest
  end.

(** [strings.Replace(s, old, new, -1)] for a non-empty [old]: every
    non-overlapping occurrence of [old], scanning from the left, is replaced
    by [new].  [skip] counts the bytes of a matched occurrence still to be
    dropped. *)
Fixpoint replace_from (old new : string) (skip : nat) (s : string) : string :=
  match s with
  | EmptyString => EmptyString
  | String ch rest =>
      match skip with
      | S k => replace_from old new k rest
      | O =>
          if string_prefixb old s
          then new +:+ replace_from old new (String.length old - 1) rest
          else String ch (replace_from old new 0 rest)
      end
  end.

Definition strings_Replace (s old new : string) : string :=
  replace_from old new 0 s.

(** ** Errors *)

Definition error : Type := string.

(** [errors.Wrapf(err, msg)] and [errors.Wrap(err, msg)]: the message, a
    colon, a space, and the text of the wrapped error. *)
Definition errors_Wrap (err : error) (msg : string) : error :=
  msg +:+ ": " +:+ err.

(** ** net/http values *)

(** A request: [Header] is the map of its header fields, each with the one
    value [Header.Set] leaves (the keys are kept as written, not in the
    canonical capitals of net/http); [BasicAuth] is what [SetBasicAuth]
    stores in the [Authorization] field. *)
Record Request : Type := mkRequest {
  Method : string;
  URL : string;
  ReqBody : option string;
  Header : gmap string string;
  BasicAuth : option (string * string)
}.

(** What [ioutil.ReadAll] returns on a response body: the bytes read, and the
    error that stopped the reading, if any. *)
Record ReadAll : Type := mkReadAll {
  read_data : string;
  read_err : option error
}.

Record Response : Type := mkResponse {
  Status : string;
  StatusCode : Z;
  Body : ReadAll
}.

Definition http_StatusOK : Z := 200.

Definition Header_Set (req : Request) (key value : string) : Request :=
  mkRequest (Method req) (URL req) (ReqBody req)
    (<[ key := value ]> (Header req))
    (BasicAuth req).

Definition SetBasicAuth (req : Request) (username password : string) : Request :=
  mkRequest (Method req) (URL req) (ReqBody req) (Header req)
    (Some (username, password)).

(** ** The records of client.go *)

Record attributes : Type := mkAttributes { Title : string }.

Record dashboard : Type := mkDashboard {
  ID : string;
  Attributes : attributes
}.

Record client : Type := mkClient {
  Host : string;
  Username : string;
  Password : string
}.

(** ** The imported packages *)

Class Runtime : Type := {
  (** net/http: the check [http.NewRequest] makes of the method and the URL,
      and one round trip of [http.DefaultClient] against a remote server in
      some state. *)
  Server : Type;
  http_request_error : string -> string -> option error;
  http_RoundTrip : Request -> Server -> (error + Response) * Server;
  (** gjson: [Get], [Valid], and the methods and the [Raw] field of a
      [Result]. *)
  Result : Type;
  gjson_Get : string -> string -> Result;
  gjson_Valid : string -> bool;
  Result_Array : Result -> list Result;
  Result_String : Result -> string;
  Result_Exists : Result -> bool;
  Result_IsArray : Result -> bool;
  Result_Raw : Result -> string;
  (** sjson: [SetRawBytes] returns the new document and an error. *)
  sjson_SetRawBytes : string -> string -> string -> string * option error;
  (** encoding/json: [Unmarshal] into a fresh [dashboard]. *)
  json_Unmarshal : string -> error + dashboard;
  (** The order in which [range] visits the keys of a map. *)
  map_range : gset string -> list string;
  (** [utf8.RuneCountInString], which [fmt] uses to pad to a width. *)
  utf8_RuneCountInString : string -> nat
}.

(** ** The world and the monad of effects *)

Inductive event : Type :=
  | Sent (req : Request)
  | StdinRead
  | StdoutWrite (s : string).

(** A world over a type of server states. *)
Record WorldOf (S : Type) : Type := mkWorld {
  remote : S;
  stdin : ReadAll;
  events : list event
}.

Arguments mkWorld {S} _ _ _.
Arguments remote {S} _.
Arguments stdin {S} _.
Arguments events {S} _.

Section World.
Context `{RT : Runtime}.

Definition World : Type := WorldOf Server.

Definition IO (A : Type) : Type := World -> A * World.

Definition ret {A : Type} (a : A) : IO A := fun w => (a, w).

Definition bind {A B : Type} (m : IO A) (k : A -> IO B) : IO B :=
  fun w => let '(a, w1) := m w in k a w1.

Definition emit (e : event) (w : World) : World :=
  mkWorld (remote w) (stdin w) (events w ++ [e]).

Definition http_NewRequest (method url : string) (body : option string)
  : error + Request :=
  match http_request_error method url with
  | Some err => inl err
  | None => inr (mkRequest method url body ∅ None)
  end.

(** [http.DefaultClient.Do(req)]. *)
Definition http_Do (req : Request) : IO (error + Response) :=
  fun w =>
    let '(r, s) := http_RoundTrip req (remote w) in
    (r, emit (Sent req) (mkWorld s (stdin w) (events w))).

(** [ioutil.ReadAll(os.Stdin)]. *)
Definition ReadAll_Stdin : IO ReadAll :=
  fun w => (stdin w, emit StdinRead w).

(** [os.Stdout.Write] and [os.Stdout.WriteString]. *)
Definition Stdout_Write (s : string) : IO unit :=
  fun w => (tt, emit (StdoutWrite s) w).

End World.

Notation "'let*' x ':=' m 'in' k" := (bind m (fun x => k))
  (at level 10, x name, m at level 100, k at level 200).

(** ** client.go *)

Module Client.
Section WithRuntime.
Context `{RT : Runtime}.

Definition _import (c : client) (payload : string) : IO (option error) :=
  let u := Host c +:+ "/api/kibana/dashboards/import?force=true" in
  match http_NewRequest "POST" u (Some payload) with
  | inl err => ret (Some err)
  | inr req =>
      let req := Header_Set req "Content-Type" "application/json" in
      let req := Header_Set req "kbn-xsrf" "true" in
      let req := SetBasicAuth req (Username c) (Password c) in
      let* r := http_Do req in
      match r with
      | inl err => ret (Some err)
      | inr resp =>
          let details := read_data (Body resp) in
          if negb (StatusCode resp =? http_StatusOK)%Z
          then ret (Some ("failed to import dashboard. Status:" +:+ Status resp
                          +:+ ". Response:" +:+ details +:+ "." +:+ newline))
          else ret None
      end
  end.

(** The loop of [searchDashboard] over the elements of [saved_objects]. *)
Fixpoint unmarshalDashboards (values : list Result) (dashboards : list dashboard)
  : error + list dashboard :=
  match values with
  | [] => inr dashboards
  | value :: rest =>
      match json_Unmarshal (Result_String value) with
      | inl err => inl (errors_Wrap err "could not parse dashboard definition")
      | inr d => unmarshalDashboards rest (dashboards ++ [d])
      end
  end.

Definition searchDashboard_url (c : client) (pattern : string) : string :=
  Host c +:+ "/api/saved_objects/_find?type=dashboard&per_page=200&search_fields=title&search="
         +:+ pattern.

Definition searchDashboard (c : client) (pattern : string)
  : IO (error + list dashboard) :=
  let u := searchDashboard_url c pattern in
  match http_NewRequest "GET" u None with
  | inl err => ret (inl err)
  | inr req =>
      let req := SetBasicAuth req (Username c) (Password c) in
      let* r := http_Do req in
      match r with
      | inl err => ret (inl err)
      | inr resp =>
          if negb (StatusCode resp =? http_StatusOK)%Z
          then
            let details := read_data (Body resp) in
            ret (inl ("failed to search dashboard name " +:+ pattern +:+ ". Status:"
                      +:+ Status resp +:+ ". Response:" +:+ details +:+ "." +:+ newline))
          else
            match read_err (Body resp) with
            | Some err => ret (inl err)
            | None =>
                let body := read_data (Body resp) in
                ret (unmarshalDashboards
                       (Result_Array (gjson_Get body "saved_objects")) [])
            end
      end
  end.

Definition getDashboard_url (c : client) (id : string) : string :=
  Host c +:+ "/api/kibana/dashboards/export?dashboard=" +:+ id.

Definition getDashboard (c : client) (id : string) : IO (error + string) :=
  let u := getDashboard_url c id in
  match http_NewRequest "GET" u None with
  | inl err => ret (inl err)
  | inr req =>
      let req := SetBasicAuth req (Username c) (Password c) in
      let* r := http_Do req in
      match r with
      | inl err => ret (inl err)
      | inr resp =>
          if negb (StatusCode resp =? http_StatusOK)%Z
          then
            let details := read_data (Body resp) in
            ret (inl ("failed to retrieve dashboard id " +:+ id +:+ ". Status:"
                      +:+ Status resp +:+ ". Response:" +:+ details +:+ "." +:+ newline))
          else
            match read_err (Body resp) with
            | Some err => ret (inl err)
            | None => ret (inr (read_data (Body resp)))
            end
      end
  end.

(** The first loop of [scanForIndexPatterns]: [names] is the Go map used as
    a set. *)
Fixpoint scanVisualisations (vals : list Result) (names : gset string) : gset string :=
  match vals with
  | [] => names
  | val :: rest =>
      let visualisation :=
        strings_Replace (Result_String val) (backslash +:+ dquote) dquote in
      let index := gjson_Get visualisation "params.index_pattern" in
      if Result_Exists index
      then scanVisualisations rest ({[ Result_String index ]} ∪ names)
      else scanVisualisations rest names
  end.

Definition scannedNames (dashboard : string) : gset string :=
  scanVisualisations
    (Result_Array (gjson_Get dashboard "objects.#.attributes.visState")) ∅.

(** The second loop copies the keys of the map into a slice, in the order
    [range] gives them. *)
Definition scanForIndexPatterns (c : client) (dashboard : string) : error + list string :=
  let names := scannedNames dashboard in
  inr (map_range names).

Definition getIndexPattern_url (c : client) (name : string) : string :=
  Host c +:+ "/api/saved_objects/_find?type=index-pattern&search_fields=title&search="
         +:+ quoted name.

Definition getIndexPattern (c : client) (name : string) : IO (error + string) :=
  let u := getIndexPattern_url c name in
  match http_NewRequest "GET" u None with
  | inl err => ret (inl err)
  | inr req =>
      let req := SetBasicAuth req (Username c) (Password c) in
      let* r := http_Do req in
      match r with
      | inl err => ret (inl err)
      | inr resp =>
          if negb (StatusCode resp =? http_StatusOK)%Z
          then
            let details := read_data (Body resp) in
            ret (inl ("failed to retrieve index-pattern title " +:+ name +:+ ". Status:"
                      +:+ Status resp +:+ ". Response: " +:+ details +:+ "." +:+ newline))
          else
            match read_err (Body resp) with
            | Some err => ret (inl err)
            | None =>
                let json := read_data (Body resp) in
                let patterns := Result_Array (gjson_Get json "saved_objects") in
                if (length patterns =? 0)%nat
                then ret (inl ("no index-pattern found matching: " +:+ name
                               +:+ "." +:+ newline))
                else if (1 <? length patterns)%nat
                then ret (inl ("More than one index-pattern found matching: " +:+ name
                               +:+ "." +:+ newline))
                else
                  match patterns with
                  | p0 :: _ => ret (inr (Result_String p0))
                  | [] => ret (inl "index out of range")
                  end
            end
      end
  end.

(** The dependency loop of [export].  The error of [sjson.SetRawBytes] is
    assigned to the loop's [err] and not read again. *)
Fixpoint appendIndexPatterns (c : client) (indiceNames : list string) (dashboard : string)
  : IO (error + string) :=
  match indiceNames with
  | [] => ret (inr dashboard)
  | name :: rest =>
      let* r := getIndexPattern c name in
      match r with
      | inl err => ret (inl err)
      | inr indexPattern =>
          let '(dashboard', _) := sjson_SetRawBytes dashboard "objects.-1" indexPattern in
          appendIndexPatterns c rest dashboard'
      end
  end.

Definition export (c : client) (name : string) : IO (error + string) :=
  let* r := searchDashboard c (quoted name) in
  match r with
  | inl err => ret (inl err)
  | inr result =>
      if (length result =? 0)%nat
      then ret (inl ("no dashboard found matching: " +:+ name +:+ "." +:+ newline))
      else if (1 <? length result)%nat
      then ret (inl ("more than one dashboard found matching: " +:+ name
                     +:+ "." +:+ newline))
      else
        match result with
        | [] => ret (inl "index out of range")
        | r0 :: _ =>
            let* r := getDashboard c (ID r0) in
            match r with
            | inl err => ret (inl err)
            | inr dashboard =>
                match scanForIndexPatterns c dashboard with
                | inl err => ret (inl err)
                | inr indiceNames => appendIndexPatterns c indiceNames dashboard
                end
            end
        end
  end.

End WithRuntime.
End Client.

(** ** main.go *)

Module Main.

(** The package variables [host], [username] and [password], which the
    command-line flags and the environment fill before an action runs. *)
Record globals : Type := mkGlobals {
  host : string;
  username : string;
  password : string
}.

(** The value of [cli.NewExitError(message, exitCode)]; a message that is an
    error is kept as its text. *)
Record ExitError : Type := mkExitError {
  message : string;
  exitCode : Z
}.

(** [c.Args().First()]: the first argument, or the empty string. *)
Definition Args_First (args : list string) : string :=
  match args with
  | [] => ""
  | a :: _ => a
  end.

(** [fmt.Sprintf] of the list format: the first value left-justified in a
    field of 40, a space, the second value and a line feed.  Padding goes on
    the right and a value of 40 runes or more is printed whole. *)
Fixpoint spaces (n : nat) : string :=
  match n with
  | O => ""
  | S k => String " " (spaces k)
  end.

Section WithRuntime.
Context `{RT : Runtime}.

Definition pad_right (width : nat) (s : string) : string :=
  s +:+ spaces (width - utf8_RuneCountInString s).

Definition list_line (a b : string) : string :=
  pad_right 40 a +:+ " " +:+ b +:+ newline.

Definition newClient (g : globals) : client :=
  mkClient (host g) (username g) (password g).

Definition checkGlobals (g : globals) : option ExitError :=
  if String.eqb (host g) "" then Some (mkExitError "kibana host not defined" 1)
  else if String.eqb (username g) "" then Some (mkExitError "kibana username not defined" 1)
  else if String.eqb (password g) "" then Some (mkExitError "kibana password not defined" 1)
  else None.

Definition _import (g : globals) (args : list string) : IO (option ExitError) :=
  let* input := ReadAll_Stdin in
  match read_err input with
  | Some err =>
      ret (Some (mkExitError (errors_Wrap err "could not read import input") 2))
  | None =>
      let bytes := read_data input in
      let* err := Client._import (newClient g) bytes in
      match err with
      | Some err => ret (Some (mkExitError err 2))
      | None => ret None
      end
  end.

Definition export (g : globals) (args : list string) : IO (option ExitError) :=
  match checkGlobals g with
  | Some err => ret (Some err)
  | None =>
      let name := Args_First args in
      if String.eqb name "" then ret (Some (mkExitError "dashboard name missing" 1))
      else
        let* r := Client.export (newClient g) name in
        match r with
        | inl err => ret (Some (mkExitError err 2))
        | inr dashboard =>
            let* _ := Stdout_Write dashboard in
            ret None
        end
  end.

(** The loop of [list] over the dashboards found. *)
Fixpoint writeDashboards (dashboards : list dashboard) : IO unit :=
  match dashboards with
  | [] => ret tt
  | val :: rest =>
      let* _ := Stdout_Write (list_line (ID val) (Title (Attributes val))) in
      writeDashboards rest
  end.

Definition list (g : globals) (args : list string) : IO (option ExitError) :=
  match checkGlobals g with
  | Some err => ret (Some err)
  | None =>
      let pattern := Args_First args in
      let* r := Client.searchDashboard (newClient g) pattern in
      match r with
      | inl err => ret (Some (mkExitError err 2))
      | inr dashboards =>
          let* _ := Stdout_Write (list_line "ID" "NAME") in
          let* _ := writeDashboards dashboards in
          ret None
      end
  end.

End WithRuntime.
End Main.

(** ** What the theorems observe *)

Section Observations.
Context `{RT : Runtime}.

(** The elements of the [objects] array of a document, each as the bytes it
    occupies in the document. *)
Definition objects_raw (doc : string) : list string :=
  map Result_Raw (Result_Array (gjson_Get doc "objects")).

Definition objects_is_array (doc : string) : bool :=
  Result_IsArray (gjson_Get doc "objects").

Definition is_blank (ch : ascii) : bool :=
  (nat_of_ascii ch <=? 32)%nat.

Fixpoint last_byte (s : string) : option ascii :=
  match s with
  | EmptyString => None
  | String ch EmptyString => Some ch
  | String _ rest => last_byte rest
  end.

Definition no_outer_blank (s : string) : bool :=
  match s, last_byte s with
  | String first _, Some final => negb (is_blank first) && negb (is_blank final)
  | _, _ => false
  end.

(** A JSON value as a saved-object record is: valid JSON with nothing around
    it. *)
Definition json_value_text (raw : string) : bool :=
  gjson_Valid raw && no_outer_blank raw.

(** What one element of [objects], given by its bytes, hands to the scanner:
    the text of its [attributes.visState], when it has one. *)
Definition visState_of (raw : string) : option string :=
  let r := gjson_Get raw "attributes.visState" in
  if Result_Exists r then Some (Result_String r) else None.

(** What the scanner reads in one [visState] text: the index-pattern name,
    when the text, with its escaped quotes replaced, has the path
    [params.index_pattern]. *)
Definition index_pattern_of (visState : string) : option string :=
  let index := gjson_Get (strings_Replace visState (backslash +:+ dquote) dquote)
                 "params.index_pattern" in
  if Result_Exists index then Some (Result_String index) else None.

(** The names one element of [objects], given by its bytes, adds to the
    set of the scanner: at most one. *)
Definition element_names (raw : string) : list string :=
  match visState_of raw with
  | Some visState =>
      match index_pattern_of visState with
      | Some name => [name]
      | None => []
      end
  | None => []
  end.

(** One turn of the dependency loop of [export]: the name looked up, the
    record the lookup returned and the error the append returned. *)
Record AppendStep : Type := mkAppendStep {
  step_name : string;
  step_record : string;
  step_err : option error
}.

(** A turn whose lookup returned a JSON value and whose append returned no
    error. *)
Definition step_ok (st : AppendStep) : Prop :=
  step_err st = None /\ json_value_text (step_record st) = true.

(** The turns the dependency loop takes from a list of names, a document and
    a world, up to the first lookup that fails. *)
Fixpoint appendSteps (c : client) (indiceNames : list string) (dashboard : string)
    (w : World) : list AppendStep :=
  match indiceNames with
  | [] => []
  | name :: rest =>
      match Client.getIndexPattern c name w with
      | (inl _, _) => []
      | (inr indexPattern, w1) =>
          let '(dashboard', err) := sjson_SetRawBytes dashboard "objects.-1" indexPattern in
          mkAppendStep name indexPattern err :: appendSteps c rest dashboard' w1
      end
  end.

(** The request the three reading functions of the client build for a
    URL. *)
Definition get_request (c : client) (url : string) : Request :=
  SetBasicAuth (mkRequest "GET" url None ∅ None) (Username c) (Password c).

(** The requests among the events of a world. *)
Definition requests (w : World) : list Request :=
  omap (fun e => match e with Sent req => Some req | _ => None end) (events w).

(** The writes to standard output among the events of a world. *)
Definition output (w : World) : list string :=
  omap (fun e => match e with StdoutWrite s => Some s | _ => None end) (events w).

End Observations.

(** ** What the theorems assume of the imported packages *)

(** [range] over a map visits every key once. *)
Class MapRangeLaws `{RT : Runtime} : Prop := {
  map_range_perm : forall names : gset string, map_range names ≡ₚ elements names
}.

(** gjson: on a valid document whose [objects] is an array, the path
    [objects.#.attributes.visState] collects, in order, the
    [attributes.visState] of the elements that have one. *)
Class GjsonLaws `{RT : Runtime} : Prop := {
  gjson_each : forall doc : string,
    gjson_Valid doc = true ->
    objects_is_array doc = true ->
    map Result_String (Result_Array (gjson_Get doc "objects.#.attributes.visState"))
    = omap visState_of (objects_raw doc)
}.

(** sjson: setting the path [objects.-1] of a document whose [objects] is an
    array to a JSON value, when it returns no error, returns a document whose
    [objects] is the old array followed by that value. *)
Class SjsonLaws `{RT : Runtime} : Prop := {
  sjson_append : forall doc raw doc' : string,
    objects_is_array doc = true ->
    json_value_text raw = true ->
    sjson_SetRawBytes doc "objects.-1" raw = (doc', None) ->
    objects_is_array doc' = true /\ objects_raw doc' = (objects_raw doc ++ [raw])%list
}.

(** ** A reference runtime

    An executable [Runtime] for the closed examples: JSON texts are read by
    the parser below and printed back by [render]; the remote server is a
    function from requests to replies. *)

Module Ref.

Inductive json : Type :=
  | JNull
  | JBool (b : bool)
  | JNumber (literal : string)
  | JString (s : string)
  | JArray (elems : list json)
  | JObject (members : list (string * json)).

Definition ch_dquote : ascii := ascii_of_nat 34.
Definition ch_backslash : ascii := ascii_of_nat 92.

Fixpoint skip_blank (s : string) : string :=
  match s with
  | String ch rest => if is_blank ch then skip_blank rest else s
  | EmptyString => EmptyString
  end.

(** The character an escape letter stands for; [u] escapes are not read. *)
Definition unescape_char (ch : ascii) : option ascii :=
  if Ascii.eqb ch ch_dquote then Some ch_dquote
  else if Ascii.eqb ch ch_backslash then Some ch_backslash
  else if Ascii.eqb ch "/" then Some "/"%char
  else if Ascii.eqb ch "n" then Some (ascii_of_nat 10)
  else if Ascii.eqb ch "t" then Some (ascii_of_nat 9)
  else if Ascii.eqb ch "r" then Some (ascii_of_nat 13)
  else if Ascii.eqb ch "b" then Some (ascii_of_nat 8)
  else if Ascii.eqb ch "f" then Some (ascii_of_nat 12)
  else None.

(** The contents of a string literal after its opening quote, unescaped, and
    the text after its closing quote. *)
Fixpoint parse_string_body (s : string) : option (string * string) :=
  match s with
  | EmptyString => None
  | String ch rest =>
      if Ascii.eqb ch ch_dquote then Some (EmptyString, rest)
      else if Ascii.eqb ch ch_backslash then
        match rest with
        | EmptyString => None
        | String esc rest' =>
            match unescape_char esc, parse_string_body rest' with
            | Some u, Some (body, after) => Some (String u body, after)
            | _, _ => None
            end
        end
      else
        match parse_string_body rest with
        | Some (body, after) => Some (String ch body, after)
        | None => None
        end
  end.

Definition is_number_char (ch : ascii) : bool :=
  let n := nat_of_ascii ch in
  ((48 <=? n) && (n <=? 57))%nat
  || Ascii.eqb ch "-" || Ascii.eqb ch "+" || Ascii.eqb ch "."
  || Ascii.eqb ch "e" || Ascii.eqb ch "E".

Fixpoint span_number (s : string) : string * string :=
  match s with
  | String ch rest =>
      if is_number_char ch
      then let '(lit, after) := span_number rest in (String ch lit, after)
      else (EmptyString, s)
  | EmptyString => (EmptyString, EmptyString)
  end.

Fixpoint drop_bytes (n : nat) (s : string) : string :=
  match n, s with
  | S k, String _ rest => drop_bytes k rest
  | _, _ => s
  end.

Definition parse_scalar (s : string) : option (json * string) :=
  if string_prefixb "true" s then Some (JBool true, drop_bytes 4 s)
  else if string_prefixb "false" s then Some (JBool false, drop_bytes 5 s)
  else if string_prefixb "null" s then Some (JNull, drop_bytes 4 s)
  else
    match span_number s with
    | (EmptyString, _) => None
    | (lit, after) => Some (JNumber lit, after)
    end.

Fixpoint parse_value (fuel : nat) (s : string) {struct fuel} : option (json * string) :=
  match fuel with
  | O => None
  | S f =>
      match skip_blank s with
      | EmptyString => None
      | String ch rest =>
          if Ascii.eqb ch "{" then
            match skip_blank rest with
            | String "}" after => Some (JObject [], after)
            | _ => parse_members f rest []
            end
          else if Ascii.eqb ch "[" then
            match skip_blank rest with
            | String "]" after => Some (JArray [], after)
            | _ => parse_elems f rest []
            end
          else if Ascii.eqb ch ch_dquote then
            match parse_string_body rest with
            | Some (str, after) => Some (JString str, after)
            | None => None
            end
          else parse_scalar (String ch rest)
      end
  end
with parse_elems (fuel : nat) (s : string) (acc : list json) {struct fuel}
  : option (json * string) :=
  match fuel with
  | O => None
  | S f =>
      match parse_value f s with
      | None => None
      | Some (v, after) =>
          match skip_blank after with
          | String "," more => parse_elems f more (acc ++ [v])
          | String "]" more => Some (JArray (acc ++ [v]), more)
          | _ => None
          end
      end
  end
with parse_members (fuel : nat) (s : string) (acc : list (string * json)) {struct fuel}
  : option (json * string) :=
  match fuel with
  | O => None
  | S f =>
      match skip_blank s with
      | String ch rest =>
          if Ascii.eqb ch ch_dquote then
            match parse_string_body rest with
            | None => None
            | Some (key, after) =>
                match skip_blank after with
                | String ":" after' =>
                    match parse_value f after' with
                    | None => None
                    | Some (v, after'') =>
                        match skip_blank after'' with
                        | String "," more => parse_members f more (acc ++ [(key, v)])
                        | String "}" more => Some (JObject (acc ++ [(key, v)]), more)
                        | _ => None
                        end
                    end
                | _ => None
                end
            end
          else None
      | EmptyString => None
      end
  end.

(** A whole text as one JSON value. *)
Definition parse (s : string) : option json :=
  match parse_value (2 * String.length s + 2) s with
  | Some (v, after) =>
      match skip_blank after with
      | EmptyString => Some v
      | String _ _ => None
      end
  | None => None
  end.

Fixpoint escape (s : string) : string :=
  match s with
  | EmptyString => EmptyString
  | String ch rest =>
      if Ascii.eqb ch ch_dquote then String ch_backslash (String ch_dquote (escape rest))
      else if Ascii.eqb ch ch_backslash
      then String ch_backslash (String ch_backslash (escape rest))
      else if Ascii.eqb ch (ascii_of_nat 10) then String ch_backslash (String "n" (escape rest))
      else if Ascii.eqb ch (ascii_of_nat 9) then String ch_backslash (String "t" (escape rest))
      else if Ascii.eqb ch (ascii_of_nat 13) then String ch_backslash (String "r" (escape rest))
      else String ch (escape rest)
  end.

Fixpoint join_comma (parts : list string) : string :=
  match parts with
  | [] => ""
  | [p] => p
  | p :: rest => p +:+ "," +:+ join_comma rest
  end.

(** The compact text of a value. *)
Fixpoint render (j : json) : string :=
  match j with
  | JNull => "null"
  | JBool true => "true"
  | JBool false => "false"
  | JNumber lit => lit
  | JString s => quoted (escape s)
  | JArray elems => "[" +:+ join_comma (map render elems) +:+ "]"
  | JObject members =>
      "{" +:+ join_comma (map (fun kv => match kv with
                                         | (k, v) => quoted (escape k) +:+ ":" +:+ render v
                                         end) members) +:+ "}"
  end.

Fixpoint assoc (key : string) (members : list (string * json)) : option json :=
  match members with
  | [] => None
  | (k, v) :: rest => if String.eqb k key then Some v else assoc key rest
  end.

Fixpoint split_dots (s : string) (cur : string) : list string :=
  match s with
  | EmptyString => [cur]
  | String ch rest =>
      if Ascii.eqb ch "." then cur :: split_dots rest ""
      else split_dots rest (cur +:+ String ch "")
  end.

Definition split_path (path : string) : list string := split_dots path "".

Fixpoint index_of_digits (s : string) (acc : nat) : option nat :=
  match s with
  | EmptyString => Some acc
  | String ch rest =>
      let n := nat_of_ascii ch in
      if ((48 <=? n) && (n <=? 57))%nat
      then index_of_digits rest (10 * acc + (n - 48))
      else None
  end.

Definition as_index (key : string) : option nat :=
  match key with
  | EmptyString => None
  | _ => index_of_digits key 0
  end.

(** A gjson result: the value found, if any. *)
Definition Value : Type := option json.

(** A path, component by component.  After [#] the rest of the path is
    looked up in the text of each element, as gjson does. *)
Fixpoint eval (path : list string) (j : json) : Value :=
  match path with
  | [] => Some j
  | key :: rest =>
      match j with
      | JObject members =>
          match assoc key members with
          | Some v => eval rest v
          | None => None
          end
      | JArray elems =>
          if String.eqb key "#" then
            match rest with
            | [] => Some (JNumber (pretty (length elems)))
            | _ :: _ =>
                Some (JArray (omap (fun el => match parse (render el) with
                                              | Some el' => eval rest el'
                                              | None => None
                                              end) elems))
            end
          else
            match as_index key with
            | Some i =>
                match elems !! i with
                | Some v => eval rest v
                | None => None
                end
            | None => None
            end
      | _ => None
      end
  end.

Definition Get (doc path : string) : Value :=
  match parse doc with
  | Some j => eval (split_path path) j
  | None => None
  end.

Definition Valid (doc : string) : bool :=
  match parse doc with
  | Some _ => true
  | None => false
  end.

Definition Array (r : Value) : list Value :=
  match r with
  | None => []
  | Some JNull => []
  | Some (JArray elems) => map Some elems
  | Some v => [Some v]
  end.

Definition String_ (r : Value) : string :=
  match r with
  | None => ""
  | Some JNull => ""
  | Some (JString s) => s
  | Some v => render v
  end.

Definition Exists (r : Value) : bool :=
  match r with
  | Some _ => true
  | None => false
  end.

Definition IsArray (r : Value) : bool :=
  match r with
  | Some (JArray _) => true
  | _ => false
  end.

Definition Raw (r : Value) : string :=
  match r with
  | Some v => render v
  | None => ""
  end.

Fixpoint set_member (key : string) (v : json) (members : list (string * json))
  : list (string * json) :=
  match members with
  | [] => [(key, v)]
  | (k, old) :: rest =>
      if String.eqb k key then (k, v) :: rest else (k, old) :: set_member key v rest
  end.

(** The document with a value appended to its [objects] array (created when
    the document has none), printed again. *)
Definition append_object (doc raw : string) : option string :=
  match parse doc, parse raw with
  | Some (JObject members), Some v =>
      match assoc "objects" members with
      | Some (JArray elems) =>
          Some (render (JObject (set_member "objects" (JArray (elems ++ [v])) members)))
      | Some _ => None
      | None => Some (render (JObject (set_member "objects" (JArray [v]) members)))
      end
  | _, _ => None
  end.

(** The reference sjson knows the one path the program uses.  It appends,
    reads the result back, and returns an error when that is not the old
    array followed by the new bytes. *)
Definition SetRawBytes (doc path raw : string) : string * option error :=
  if String.eqb path "objects.-1" then
    match append_object doc raw with
    | Some doc' =>
        if IsArray (Get doc' "objects")
           && bool_decide (map Raw (Array (Get doc' "objects"))
                           = (map Raw (Array (Get doc "objects")) ++ [raw])%list)
        then (doc', None)
        else (doc, Some "sjson: the value cannot be appended")
    | None => (doc, Some "sjson: the document has no array of objects")
    end
  else (doc, Some "sjson: path not handled").

Definition member_string (key : string) (members : list (string * json))
  : error + string :=
  match assoc key members with
  | None => inr ""
  | Some JNull => inr ""
  | Some (JString s) => inr s
  | Some _ => inl ("json: cannot unmarshal into field " +:+ key +:+ " of type string")
  end.

(** [json.Unmarshal] into a [dashboard]: absent members leave the zero
    value. *)
Definition Unmarshal (text : string) : error + dashboard :=
  match parse text with
  | None => inl "invalid character in JSON input"
  | Some JNull => inr (mkDashboard "" (mkAttributes ""))
  | Some (JObject members) =>
      match member_string "id" members with
      | inl err => inl err
      | inr id =>
          match assoc "attributes" members with
          | None | Some JNull => inr (mkDashboard id (mkAttributes ""))
          | Some (JObject attrs) =>
              match member_string "title" attrs with
              | inl err => inl err
              | inr title => inr (mkDashboard id (mkAttributes title))
              end
          | Some _ => inl "json: cannot unmarshal into field attributes"
          end
      end
  | Some _ => inl "json: cannot unmarshal into value of type dashboard"
  end.

(** Runes of a valid UTF-8 text: the bytes that do not continue a rune. *)
Fixpoint RuneCount (s : string) : nat :=
  match s with
  | EmptyString => 0
  | String ch rest =>
      let n := nat_of_ascii ch in
      if ((128 <=? n) && (n <? 192))%nat then RuneCount rest else S (RuneCount rest)
  end.

(** The runtime whose server answers a request with [reply]. *)
Definition runtime (reply : Request -> error + Response) : Runtime := {|
  Server := unit;
  http_request_error := fun _ _ => None;
  http_RoundTrip := fun req s => (reply req, s);
  Result := Value;
  gjson_Get := Get;
  gjson_Valid := Valid;
  Result_Array := Array;
  Result_String := String_;
  Result_Exists := Exists;
  Result_IsArray := IsArray;
  Result_Raw := Raw;
  sjson_SetRawBytes := SetRawBytes;
  json_Unmarshal := Unmarshal;
  map_range := elements;
  utf8_RuneCountInString := RuneCount
|}.

End Ref.

(** ** A scenario for the closed examples

    A server with the dashboard [Sales] (id [abc123]), whose export holds the
    dashboard, three visualisations on the index patterns [logs-*], [logs-*]
    and [metrics-*], one visualisation without an index pattern, and a
    search result; the dashboard [Sales EU]; and the two index patterns. *)

Module Scenario.
Import Ref.

Definition kibana : string := "http://kibana.example:5601".

Definition g : Main.globals := Main.mkGlobals kibana "elastic" "changeme".

Definition c : client := mkClient kibana "elastic" "changeme".

Definition saved_object (id type title : string) (more : list (string * json)) : json :=
  JObject [("id", JString id); ("type", JString type);
           ("attributes", JObject (("title", JString title) :: more))].

(** The state of a visualisation, printed to a string as Kibana stores it. *)
Definition visState (title : string) (params : list (string * json)) : json :=
  JString (render (JObject [("title", JString title); ("type", JString "line");
                            ("params", JObject params)])).

Definition visualisation (id title : string) (params : list (string * json)) : json :=
  saved_object id "visualization" title [("visState", visState title params)].

Definition sales : json := saved_object "abc123" "dashboard" "Sales" [].
Definition sales_eu : json := saved_object "def456" "dashboard" "Sales EU" [].
Definition vis_requests : json :=
  visualisation "v1" "Requests" [("index_pattern", JString "logs-*")].
Definition vis_errors : json :=
  visualisation "v2" "Errors" [("index_pattern", JString "logs-*")].
Definition vis_load : json :=
  visualisation "v3" "Load" [("index_pattern", JString "metrics-*")].
Definition vis_notes : json :=
  visualisation "v4" "Notes" [("fontSize", JNumber "12")].
Definition search_view : json := saved_object "s1" "search" "All logs" [].

(** A visualisation whose state is stored as a JSON object, not as a
    string. *)
Definition vis_audit : json :=
  saved_object "v5" "visualization" "Audit"
    [("visState", JObject [("params", JObject [("index_pattern", JString "audit-*")])])].

Definition logs_pattern : json := saved_object "ip1" "index-pattern" "logs-*" [].
Definition logs_archive_pattern : json := saved_object "ip3" "index-pattern" "logs-*" [].
Definition metrics_pattern : json := saved_object "ip2" "index-pattern" "metrics-*" [].

Definition export_objects : list json :=
  [sales; vis_requests; vis_errors; search_view; vis_load; vis_notes].

Definition export_document (objects : list json) : string :=
  render (JObject [("objects", JArray objects)]).

Definition sales_export : string := export_document export_objects.

Definition found (objects : list json) : string :=
  render (JObject [("page", JNumber "1"); ("per_page", JNumber "200");
                   ("total", JNumber (pretty (length objects)));
                   ("saved_objects", JArray objects)]).

Definition ok (body : string) : error + Response :=
  inr (mkResponse "200 OK" 200 (mkReadAll body None)).

Definition not_found : error + Response :=
  inr (mkResponse "404 Not Found" 404 (mkReadAll "Not Found" None)).

Definition find_url (type params pattern : string) : string :=
  kibana +:+ "/api/saved_objects/_find?type=" +:+ type +:+ params
         +:+ "&search_fields=title&search=" +:+ pattern.

Fixpoint lookup_url (url : string) (pages : list (string * string)) : error + Response :=
  match pages with
  | [] => not_found
  | (u, body) :: rest => if String.eqb u url then ok body else lookup_url url rest
  end.

(** The pages of the server; [logs] is what a search for the index pattern
    [logs-*] finds. *)
Definition pages (logs : list json) : list (string * string) :=
  [ (find_url "dashboard" "&per_page=200" (quoted "Sales"), found [sales]);
    (find_url "dashboard" "&per_page=200" (quoted "Sal"), found [sales; sales_eu]);
    (find_url "dashboard" "&per_page=200" "Sal", found [sales; sales_eu]);
    (find_url "dashboard" "&per_page=200" (quoted "Nothing"), found []);
    (find_url "dashboard" "&per_page=200" "Nothing", found []);
    (kibana +:+ "/api/kibana/dashboards/export?dashboard=abc123", sales_export);
    (find_url "index-pattern" "" (quoted "logs-*"), found logs);
    (find_url "index-pattern" "" (quoted "metrics-*"), found [metrics_pattern]) ].

Definition reply (logs : list json) (req : Request) : error + Response :=
  if String.eqb (Method req) "GET" then lookup_url (URL req) (pages logs)
  else if String.eqb (URL req) (kibana +:+ "/api/kibana/dashboards/import?force=true")
  then ok "{}"
  else not_found.

(** The server as it should be, with one index pattern [logs-*]; a server
    with two index patterns of that title; and one with none. *)
Definition rt : Runtime := Ref.runtime (reply [logs_pattern]).
Definition rt_ambiguous : Runtime := Ref.runtime (reply [logs_pattern; logs_archive_pattern]).
Definition rt_missing : Runtime := Ref.runtime (reply []).

(** The same server reached through an sjson that refuses every append and,
    as sjson does on an error, returns no document. *)
Definition rt_refusing : Runtime := {|
  Server := unit;
  http_request_error := fun _ _ => None;
  http_RoundTrip := fun req s => (reply [logs_pattern] req, s);
  Result := Ref.Value;
  gjson_Get := Get;
  gjson_Valid := Valid;
  Result_Array := Array;
  Result_String := String_;
  Result_Exists := Exists;
  Result_IsArray := IsArray;
  Result_Raw := Raw;
  sjson_SetRawBytes := fun _ _ _ => ("", Some "sjson: refused");
  json_Unmarshal := Unmarshal;
  map_range := elements;
  utf8_RuneCountInString := RuneCount
|}.

(** The world before a command runs: nothing sent, read or written. *)
Definition start (RT : Runtime) (s : Server) (input : string) : World :=
  mkWorld s (mkReadAll input None) [].

Definition d_sales : dashboard := mkDashboard "abc123" (mkAttributes "Sales").
Definition d_sales_eu : dashboard := mkDashboard "def456" (mkAttributes "Sales EU").

(** The export of [Sales] with its objects in the opposite order, and an
    export that holds [vis_audit]. *)
Definition reordered_export : string := export_document (rev export_objects).
Definition audit_export : string := export_document [sales; vis_audit].

(** Globals with a host and no username or password. *)
Definition g_anonymous : Main.globals := Main.mkGlobals kibana "" "".

(** The worlds of an export of [Sales]: at the start, after the search and
    after the fetch of the export document. *)
Definition w0 (RT : Runtime) (s : Server) : World := start RT s "".
Definition w1 (RT : Runtime) (s : Server) : World :=
  (Client.searchDashboard c (quoted "Sales") (w0 RT s)).2.
Definition w2 (RT : Runtime) (s : Server) : World :=
  (Client.getDashboard c "abc123" (w1 RT s)).2.

(** The document of a result, or nothing. *)
Definition document (r : error + string) : string :=
  match r with
  | inr doc => doc
  | inl _ => ""
  end.

(** The turns of the dependency loop for [Sales], whose names come from the
    set as [metrics-*] and then [logs-*]: with the reference sjson, and with
    the sjson that refuses. *)
Definition sales_steps : list AppendStep :=
  [ mkAppendStep "metrics-*" (render metrics_pattern) None;
    mkAppendStep "logs-*" (render logs_pattern) None ].

Definition refused_steps : list AppendStep :=
  [ mkAppendStep "metrics-*" (render metrics_pattern) (Some "sjson: refused");
    mkAppendStep "logs-*" (render logs_pattern) (Some "sjson: refused") ].

End Scenario.

(** ** More observations and cases *)

(** The request [_import] builds for a payload. *)
Definition import_request (c : client) (payload : string) : Request :=
  SetBasicAuth
    (Header_Set
       (Header_Set
          (mkRequest "POST" (Host c +:+ "/api/kibana/dashboards/import?force=true")
             (Some payload) ∅ None)
          "Content-Type" "application/json")
       "kbn-xsrf" "true")
    (Username c) (Password c).

(** The events of sending, one after the other, the reading requests for a
    list of URLs. *)
Definition sent_gets (c : client) (urls : list string) : list event :=
  map (fun url => Sent (get_request c url)) urls.

(** From [w] to [w'] nothing happened but reading requests of the client:
    standard input is as it was and the new events are such requests. *)
Definition only_gets `{RT : Runtime} (c : client) (w w' : World) : Prop :=
  stdin w' = stdin w
  /\ exists urls : list string, events w' = (events w ++ sent_gets c urls)%list.

(** More pages for the server of the scenario: a search that finds a record
    whose [id] is a number between two dashboards, and the dashboard [Notes]
    (id [n1]), whose export names no index pattern. *)
Module Cases.
Import Ref Scenario.

Definition broken : json :=
  JObject [("id", JNumber "7"); ("attributes", JObject [("title", JString "Broken")])].

Definition notes : json := saved_object "n1" "dashboard" "Notes" [].
Definition d_notes : dashboard := mkDashboard "n1" (mkAttributes "Notes").

Definition notes_export : string := export_document [notes; vis_notes; search_view].

Definition more_pages : list (string * string) :=
  [ (find_url "dashboard" "&per_page=200" "Broken", found [sales; broken; sales_eu]);
    (find_url "dashboard" "&per_page=200" (quoted "Notes"), found [notes]);
    (kibana +:+ "/api/kibana/dashboards/export?dashboard=n1", notes_export) ].

Definition reply (req : Request) : error + Response :=
  if String.eqb (Method req) "GET" then
    match lookup_url (URL req) more_pages with
    | inr (mkResponse _ 200 body) => inr (mkResponse "200 OK" 200 body)
    | _ => Scenario.reply [logs_pattern] req
    end
  else Scenario.reply [logs_pattern] req.

Definition rt : Runtime := Ref.runtime reply.

(** A world whose standard input breaks off. *)
Definition broken_input : World (RT := rt) :=
  mkWorld tt (mkReadAll "{" (Some "unexpected EOF")) [].

End Cases.

(** * Properties *)

Local Open Scope list_scope.

(** ** The monad and the events *)

Section Basics.
Context `{RT : Runtime}.

Lemma bind_run {A B : Type} (m : IO A) (k : A -> IO B) (w : World) :
  bind m k w = k (m w).1 (m w).2.
Proof. unfold bind. destruct (m w); reflexivity. Qed.

Lemma bind_run_eq {A B : Type} (m : IO A) (k : A -> IO B) (w w1 : World) (a : A) :
  m w = (a, w1) -> bind m k w = k a w1.
Proof. intros Hm. unfold bind. rewrite Hm. reflexivity. Qed.

Lemma requests_emit_sent (req : Request) (w : World) :
  requests (emit (Sent req) w) = requests w ++ [req].
Proof. unfold requests, emit; simpl. rewrite omap_app. reflexivity. Qed.

Lemma output_emit_write (s : string) (w : World) :
  output (emit (StdoutWrite s) w) = output w ++ [s].
Proof. unfold output, emit; simpl. rewrite omap_app. reflexivity. Qed.

Lemma http_Do_events (req : Request) (w : World) :
  events (http_Do req w).2 = events w ++ [Sent req].
Proof. unfold http_Do. destruct (http_RoundTrip req (remote w)); reflexivity. Qed.

End Basics.

(** ** The dependency loop *)

Section Loop.
Context `{RT : Runtime}.

Lemma appendIndexPatterns_cons (c : client) (name : string) (rest : list string)
    (doc : string) (w : World) :
  Client.appendIndexPatterns c (name :: rest) doc w =
  match Client.getIndexPattern c name w with
  | (inl err, w1) => (inl err, w1)
  | (inr indexPattern, w1) =>
      Client.appendIndexPatterns c rest
        (sjson_SetRawBytes doc "objects.-1" indexPattern).1 w1
  end.
Proof.
  simpl. unfold bind.
  destruct (Client.getIndexPattern c name w) as [[err | raw] w1]; [reflexivity |].
  destruct (sjson_SetRawBytes doc "objects.-1" raw); reflexivity.
Qed.

Lemma appendSteps_cons (c : client) (name : string) (rest : list string)
    (doc : string) (w : World) :
  appendSteps c (name :: rest) doc w =
  match Client.getIndexPattern c name w with
  | (inl _, _) => []
  | (inr indexPattern, w1) =>
      mkAppendStep name indexPattern (sjson_SetRawBytes doc "objects.-1" indexPattern).2
      :: appendSteps c rest (sjson_SetRawBytes doc "objects.-1" indexPattern).1 w1
  end.
Proof.
  simpl.
  destruct (Client.getIndexPattern c name w) as [[err | raw] w1]; [reflexivity |].
  destruct (sjson_SetRawBytes doc "objects.-1" raw); reflexivity.
Qed.

(** A loop over [pre ++ post] is the loop over [pre] followed, when it
    returns a document, by the loop over [post] from there. *)
Lemma appendIndexPatterns_app (c : client) (pre post : list string) (doc : string)
    (w : World) :
  Client.appendIndexPatterns c (pre ++ post) doc w =
  match Client.appendIndexPatterns c pre doc w with
  | (inl err, w1) => (inl err, w1)
  | (inr doc1, w1) => Client.appendIndexPatterns c post doc1 w1
  end.
Proof.
  revert doc w. induction pre as [| name pre IH]; intros doc w.
  - reflexivity.
  - rewrite <- app_comm_cons, !appendIndexPatterns_cons.
    destruct (Client.getIndexPattern c name w) as [[err | raw] w1]; [reflexivity |].
    apply IH.
Qed.

(** The loop returns a document exactly when every lookup succeeded; the
    result of the appends plays no part. *)
Lemma appendIndexPatterns_inr_steps (c : client) (names : list string) (doc : string)
    (w : World) :
  (exists out w', Client.appendIndexPatterns c names doc w = (inr out, w'))
  <-> length (appendSteps c names doc w) = length names.
Proof.
  revert doc w. induction names as [| name names IH]; intros doc w.
  - simpl. split; [reflexivity | intros _; eexists _, _; reflexivity].
  - rewrite appendIndexPatterns_cons, appendSteps_cons.
    destruct (Client.getIndexPattern c name w) as [[err | raw] w1].
    + split; [intros (out & w' & H); discriminate | simpl; discriminate].
    + rewrite IH. simpl. split; [intros ->; reflexivity | intros H; injection H; auto].
Qed.

(** With the search and the export fetch done, [export] is the dependency
    loop over the names the scanner returns. *)
Lemma export_found (c : client) (name : string) (w w1 w2 : World) (d : dashboard)
    (doc : string) :
  Client.searchDashboard c (quoted name) w = (inr [d], w1) ->
  Client.getDashboard c (ID d) w1 = (inr doc, w2) ->
  Client.export c name w =
  Client.appendIndexPatterns c (map_range (Client.scannedNames doc)) doc w2.
Proof.
  intros Hsearch Hget. unfold Client.export.
  rewrite (bind_run_eq _ _ _ _ _ Hsearch). simpl.
  rewrite (bind_run_eq _ _ _ _ _ Hget). reflexivity.
Qed.

End Loop.

(** ** Cardinality of the dashboard search *)

Section DashboardCardinality.
Context `{RT : Runtime}.

(** C3. When the search for the quoted dashboard name finds nothing, export
    returns the error [no dashboard found matching: NAME] (the name is
    followed by a full stop and a line feed); when it finds more than one
    dashboard, export returns the error [more than one dashboard found
    matching: NAME].  In both cases the result is an error, never a
    document, and nothing more is sent to the server. *)
Theorem export_dashboard_cardinality (c : client) (name : string) (w w1 : World)
    (result : list dashboard) :
  Client.searchDashboard c (quoted name) w = (inr result, w1) ->
  (length result = 0 ->
     Client.export c name w
     = (inl ("no dashboard found matching: " +:+ name +:+ "." +:+ newline), w1))
  /\ (1 < length result ->
     Client.export c name w
     = (inl ("more than one dashboard found matching: " +:+ name +:+ "." +:+ newline), w1)).
Proof.
  intros Hsearch. unfold Client.export.
  rewrite (bind_run_eq _ _ _ _ _ Hsearch). split; intros Hlen.
  - rewrite Hlen. reflexivity.
  - destruct (Nat.eqb_spec (length result) 0) as [H0 | _]; [lia |].
    destruct (Nat.ltb_spec 1 (length result)) as [_ | H1]; [reflexivity | lia].
Qed.

End DashboardCardinality.

(** ** Cardinality of the index-pattern lookup, and failing fast *)

Section DependencyLookup.
Context `{RT : Runtime}.

(** A reply with status 200 whose body was read to the end is judged by the
    number of elements of its [saved_objects]. *)
Lemma getIndexPattern_replied (c : client) (name : string) (w w1 : World)
    (resp : Response) :
  http_request_error "GET" (Client.getIndexPattern_url c name) = None ->
  http_Do (get_request c (Client.getIndexPattern_url c name)) w = (inr resp, w1) ->
  StatusCode resp = 200%Z ->
  read_err (Body resp) = None ->
  Client.getIndexPattern c name w =
  let patterns := Result_Array (gjson_Get (read_data (Body resp)) "saved_objects") in
  match patterns with
  | [] => (inl ("no index-pattern found matching: " +:+ name +:+ "." +:+ newline), w1)
  | [p0] => (inr (Result_String p0), w1)
  | _ :: _ :: _ =>
      (inl ("More than one index-pattern found matching: " +:+ name +:+ "." +:+ newline), w1)
  end.
Proof.
  intros Hreq Hdo Hstatus Hread.
  unfold Client.getIndexPattern, http_NewRequest. rewrite Hreq.
  fold (get_request c (Client.getIndexPattern_url c name)).
  rewrite (bind_run_eq _ _ _ _ _ Hdo). rewrite Hstatus, Hread. simpl.
  destruct (Result_Array (gjson_Get (read_data (Body resp)) "saved_objects"))
    as [| p0 [| p1 rest]]; reflexivity.
Qed.

(** A failed lookup ends the loop with its error. *)
Lemma appendIndexPatterns_lookup_fails (c : client) (pre post : list string)
    (name : string) (doc doc1 : string) (w w1 w2 : World) (e : error) :
  Client.appendIndexPatterns c pre doc w = (inr doc1, w1) ->
  Client.getIndexPattern c name w1 = (inl e, w2) ->
  Client.appendIndexPatterns c (pre ++ name :: post) doc w = (inl e, w2).
Proof.
  intros Hpre Hfail.
  rewrite appendIndexPatterns_app, Hpre, appendIndexPatterns_cons, Hfail.
  reflexivity.
Qed.

(** C2, as amended.  In the dependency loop of export, after the lookups of
    the names before [name] have succeeded: any error of the lookup of
    [name] is what export returns, with no document and nothing further sent;
    and a lookup answered with status 200 fails with
    [no index-pattern found matching: NAME] when [saved_objects] has no
    element and with [More than one index-pattern found matching: NAME]
    (capital M) when it has more than one. *)
Theorem dependency_lookup_fail_fast (c : client) (dname name : string)
    (pre post : list string) (d : dashboard) (doc doc1 : string)
    (w w1 w2 w3 : World) :
  Client.searchDashboard c (quoted dname) w = (inr [d], w1) ->
  Client.getDashboard c (ID d) w1 = (inr doc, w2) ->
  map_range (Client.scannedNames doc) = pre ++ name :: post ->
  Client.appendIndexPatterns c pre doc w2 = (inr doc1, w3) ->
  (forall (e : error) (w4 : World),
      Client.getIndexPattern c name w3 = (inl e, w4) ->
      Client.export c dname w = (inl e, w4))
  /\ (forall (resp : Response) (w4 : World),
      http_request_error "GET" (Client.getIndexPattern_url c name) = None ->
      http_Do (get_request c (Client.getIndexPattern_url c name)) w3 = (inr resp, w4) ->
      StatusCode resp = 200%Z ->
      read_err (Body resp) = None ->
      let patterns := Result_Array (gjson_Get (read_data (Body resp)) "saved_objects") in
      (length patterns = 0 ->
         Client.getIndexPattern c name w3
         = (inl ("no index-pattern found matching: " +:+ name +:+ "." +:+ newline), w4))
      /\ (1 < length patterns ->
         Client.getIndexPattern c name w3
         = (inl ("More than one index-pattern found matching: " +:+ name
                 +:+ "." +:+ newline), w4))).
Proof.
  intros Hsearch Hget Hnames Hpre. split.
  - intros e w4 Hfail.
    rewrite (export_found _ _ _ _ _ _ _ Hsearch Hget), Hnames.
    exact (appendIndexPatterns_lookup_fails _ _ _ _ _ _ _ _ _ _ Hpre Hfail).
  - intros resp w4 Hreq Hdo Hstatus Hread patterns.
    rewrite (getIndexPattern_replied _ _ _ _ _ Hreq Hdo Hstatus Hread).
    fold patterns. destruct patterns as [| p0 [| p1 rest]]; simpl; split; intros Hlen;
      try reflexivity; lia.
Qed.

End DependencyLookup.

(** ** The scanner *)

Section Scanner.
Context `{RT : Runtime}.

(** The first loop adds to the set the name read in each value, when there
    is one. *)
Lemma scanVisualisations_spec (vals : list Result) (names : gset string) :
  Client.scanVisualisations vals names
  = list_to_set (omap index_pattern_of (map Result_String vals)) ∪ names.
Proof.
  revert names. induction vals as [| val vals IH]; intros names; simpl.
  - set_solver.
  - unfold index_pattern_of at 1.
    destruct (Result_Exists _); rewrite IH; simpl; set_solver.
Qed.

Lemma scannedNames_spec (doc : string) :
  Client.scannedNames doc
  = list_to_set (omap index_pattern_of
      (map Result_String (Result_Array (gjson_Get doc "objects.#.attributes.visState")))).
Proof. unfold Client.scannedNames. rewrite scanVisualisations_spec. set_solver. Qed.

Lemma omap_index_pattern_concat (raws : list string) :
  omap index_pattern_of (omap visState_of raws) = concat (map element_names raws).
Proof.
  induction raws as [| raw raws IH]; simpl; [reflexivity |].
  unfold element_names at 1. destruct (visState_of raw) as [vs |]; simpl; [| exact IH].
  destruct (index_pattern_of vs); simpl; [f_equal |]; exact IH.
Qed.

(** With gjson as assumed, the set of the scanner is the union, over the
    elements of [objects], of the names each element adds. *)
Lemma scannedNames_elements `{!GjsonLaws} (doc : string) :
  gjson_Valid doc = true ->
  objects_is_array doc = true ->
  Client.scannedNames doc = list_to_set (concat (map element_names (objects_raw doc))).
Proof.
  intros Hvalid Harr.
  rewrite scannedNames_spec, (gjson_each doc Hvalid Harr), omap_index_pattern_concat.
  reflexivity.
Qed.

Lemma scanForIndexPatterns_list `{!MapRangeLaws} (c : client) (doc : string)
    (names : list string) :
  Client.scanForIndexPatterns c doc = inr names ->
  NoDup names /\ list_to_set names = Client.scannedNames doc.
Proof.
  unfold Client.scanForIndexPatterns. intros [= <-].
  pose proof (map_range_perm (Client.scannedNames doc)) as Hperm. split.
  - rewrite Hperm. apply NoDup_elements.
  - apply set_eq. intros x. rewrite elem_of_list_to_set, Hperm, elem_of_elements.
    reflexivity.
Qed.

(** C4. The scanner returns the names of a set, each once, and the set does
    not depend on the client or on the run; on valid documents whose
    [objects] arrays hold the same elements in another order it finds the
    same set; and a document in which the visualisations name [logs-*]
    twice and [metrics-*] once gives the two names [logs-*] and
    [metrics-*]. *)
Theorem scanner_names_set `{!MapRangeLaws} `{!GjsonLaws} (c c' : client)
    (doc doc' : string) :
  (forall names names' : list string,
      Client.scanForIndexPatterns c doc = inr names ->
      Client.scanForIndexPatterns c' doc = inr names' ->
      NoDup names /\ NoDup names'
      /\ (list_to_set names : gset string) = list_to_set names')
  /\ (gjson_Valid doc = true -> gjson_Valid doc' = true ->
      objects_is_array doc = true -> objects_is_array doc' = true ->
      objects_raw doc ≡ₚ objects_raw doc' ->
      Client.scannedNames doc = Client.scannedNames doc'
      /\ forall names names' : list string,
          Client.scanForIndexPatterns c doc = inr names ->
          Client.scanForIndexPatterns c doc' = inr names' ->
          names ≡ₚ names')
  /\ (omap index_pattern_of
        (map Result_String (Result_Array (gjson_Get doc "objects.#.attributes.visState")))
      ≡ₚ ["logs-*"; "logs-*"; "metrics-*"] ->
      Client.scannedNames doc = {[ "logs-*"; "metrics-*" ]}
      /\ forall names : list string,
          Client.scanForIndexPatterns c doc = inr names ->
          length names = 2 /\ names ≡ₚ ["logs-*"; "metrics-*"]).
Proof.
  split; [| split].
  - intros names names' H1 H2.
    destruct (scanForIndexPatterns_list _ _ _ H1) as [Hnd1 Hset1].
    destruct (scanForIndexPatterns_list _ _ _ H2) as [Hnd2 Hset2].
    repeat split; [assumption | assumption | congruence].
  - intros Hv Hv' Ha Ha' Hperm.
    assert (Hsame : Client.scannedNames doc = Client.scannedNames doc').
    { rewrite (scannedNames_elements doc Hv Ha), (scannedNames_elements doc' Hv' Ha').
      apply set_eq. intros x. rewrite !elem_of_list_to_set.
      rewrite Hperm. reflexivity. }
    split; [exact Hsame |].
    intros names names' H1 H2.
    destruct (scanForIndexPatterns_list _ _ _ H1) as [Hnd1 Hset1].
    destruct (scanForIndexPatterns_list _ _ _ H2) as [Hnd2 Hset2].
    apply NoDup_Permutation; [assumption | assumption |].
    intros x.
    rewrite <- (elem_of_list_to_set (C := gset string) x names).
    rewrite <- (elem_of_list_to_set (C := gset string) x names').
    rewrite Hset1, Hset2, Hsame. reflexivity.
  - intros Hfound.
    assert (Hset : Client.scannedNames doc = {[ "logs-*"; "metrics-*" ]}).
    { rewrite scannedNames_spec. apply set_eq. intros x.
      rewrite elem_of_list_to_set, Hfound. set_solver. }
    split; [exact Hset |].
    intros names H1.
    destruct (scanForIndexPatterns_list _ _ _ H1) as [Hnd1 Hset1].
    assert (Hperm : names ≡ₚ ["logs-*"; "metrics-*"]).
    { apply NoDup_Permutation; [assumption | |].
      - repeat constructor; set_solver.
      - intros x. rewrite <- (elem_of_list_to_set (C := gset string) x names).
        rewrite Hset1, Hset. set_solver. }
    split; [rewrite Hperm; reflexivity | exact Hperm].
Qed.

End Scanner.

Section SkippedElements.
Context `{RT : Runtime}.

(** C7, as amended.  The scanner returns no error.  On a valid document
    whose [objects] is an array, a name is found exactly when some element
    adds it, and an element adds nothing when it has no
    [attributes.visState], or when the text of its [visState], with the
    escaped quotes replaced, has no path [params.index_pattern].  The text
    of a [visState] that is not a string is its JSON text, and is scanned
    like any other. *)
Theorem scanner_skips_elements `{!GjsonLaws} (c : client) (doc : string) :
  (exists names : list string, Client.scanForIndexPatterns c doc = inr names)
  /\ (gjson_Valid doc = true -> objects_is_array doc = true ->
      forall x : string,
        x ∈ Client.scannedNames doc
        <-> exists raw : string, raw ∈ objects_raw doc /\ x ∈ element_names raw)
  /\ (forall raw : string,
        Result_Exists (gjson_Get raw "attributes.visState") = false ->
        element_names raw = [])
  /\ (forall raw : string,
        Result_Exists
          (gjson_Get
             (strings_Replace (Result_String (gjson_Get raw "attributes.visState"))
                (backslash +:+ dquote) dquote)
             "params.index_pattern") = false ->
        element_names raw = []).
Proof.
  split; [| split; [| split]].
  - eexists. reflexivity.
  - intros Hvalid Harr x.
    rewrite (scannedNames_elements doc Hvalid Harr), elem_of_list_to_set.
    rewrite list_elem_of_In, in_concat. split.
    + intros (l & Hl & Hx). apply in_map_iff in Hl as (raw & <- & Hraw).
      exists raw. rewrite !list_elem_of_In. auto.
    + intros (raw & Hraw & Hx). exists (element_names raw).
      rewrite list_elem_of_In in Hraw, Hx. split; [apply in_map; exact Hraw | exact Hx].
  - intros raw Hno. unfold element_names, visState_of. rewrite Hno. reflexivity.
  - intros raw Hno. unfold element_names, visState_of.
    destruct (Result_Exists (gjson_Get raw "attributes.visState")); [| reflexivity].
    unfold index_pattern_of. rewrite Hno. reflexivity.
Qed.

End SkippedElements.

(** ** Appending the index patterns *)

Section Appending.
Context `{RT : Runtime}.

(** Every turn of the loop appends what the lookup of its name returned. *)
Lemma appendSteps_lookups (c : client) (names : list string) (doc : string) (w : World) :
  Forall (fun st => exists wi wi' : World,
            Client.getIndexPattern c (step_name st) wi = (inr (step_record st), wi'))
    (appendSteps c names doc w).
Proof.
  revert doc w. induction names as [| name names IH]; intros doc w.
  - constructor.
  - rewrite appendSteps_cons.
    destruct (Client.getIndexPattern c name w) as [[err | raw] w1] eqn:Hlookup;
      constructor; [| apply IH].
    simpl. eexists _, _. exact Hlookup.
Qed.

(** A loop whose lookups return JSON values and whose appends return no
    error grows [objects] by the records, in the order of the names. *)
Lemma appendIndexPatterns_objects `{!SjsonLaws} (c : client) (names : list string)
    (doc out : string) (w w' : World) :
  objects_is_array doc = true ->
  Client.appendIndexPatterns c names doc w = (inr out, w') ->
  Forall step_ok (appendSteps c names doc w) ->
  objects_is_array out = true
  /\ objects_raw out = objects_raw doc ++ map step_record (appendSteps c names doc w)
  /\ map step_name (appendSteps c names doc w) = names.
Proof.
  revert doc w. induction names as [| name names IH]; intros doc w Harr Hrun Hok.
  - simpl in *. injection Hrun as <- <-. rewrite app_nil_r. auto.
  - rewrite appendIndexPatterns_cons in Hrun. rewrite appendSteps_cons in Hok |- *.
    destruct (Client.getIndexPattern c name w) as [[err | raw] w1]; [discriminate |].
    destruct (sjson_SetRawBytes doc "objects.-1" raw) as [doc1 err1] eqn:Hset.
    simpl in *. inversion Hok as [| st sts [Herr Hvalue] Hrest]; subst. simpl in *.
    subst err1.
    destruct (sjson_append doc raw doc1 Harr Hvalue Hset) as [Harr1 Hraw1].
    destruct (IH doc1 w1 Harr1 Hrun Hrest) as (Harr' & Hraw' & Hnames').
    repeat split; [exact Harr' | | f_equal; exact Hnames'].
    rewrite Hraw', Hraw1, <- app_assoc. reflexivity.
Qed.

(** C5. When the lookups of a list of names return JSON values and the
    appends return no error, the [objects] array of the document returned by
    the loop is the [objects] array of the document given to it, element for
    element the same bytes, followed by one new element for each name: the
    bytes the lookup of that name returned. *)
Theorem append_preserves_objects `{!SjsonLaws} (c : client) (names : list string)
    (doc out : string) (w w' : World) :
  objects_is_array doc = true ->
  Client.appendIndexPatterns c names doc w = (inr out, w') ->
  Forall step_ok (appendSteps c names doc w) ->
  let steps := appendSteps c names doc w in
  objects_raw out = objects_raw doc ++ map step_record steps
  /\ length (objects_raw out) = length (objects_raw doc) + length names
  /\ map step_name steps = names
  /\ Forall (fun st => exists wi wi' : World,
               Client.getIndexPattern c (step_name st) wi = (inr (step_record st), wi'))
       steps.
Proof.
  intros Harr Hrun Hok steps.
  destruct (appendIndexPatterns_objects c names doc out w w' Harr Hrun Hok)
    as (_ & Hraw & Hnames).
  fold steps in Hraw, Hnames. repeat split.
  - exact Hraw.
  - rewrite Hraw, length_app, length_map. f_equal.
    rewrite <- (length_map step_name), Hnames. reflexivity.
  - exact Hnames.
  - apply appendSteps_lookups.
Qed.

(** C1. When the search finds one dashboard, the fetched export document has
    an [objects] array, export returns a document, and in its dependency
    loop every lookup returned a JSON value and every append returned no
    error, then the [objects] array of the returned document is longer than
    that of the fetched document by the number of names in the set of the
    scanner. *)
Theorem export_objects_length `{!MapRangeLaws} `{!SjsonLaws} (c : client) (name : string)
    (d : dashboard) (doc out : string) (w w1 w2 w3 : World) :
  Client.searchDashboard c (quoted name) w = (inr [d], w1) ->
  Client.getDashboard c (ID d) w1 = (inr doc, w2) ->
  objects_is_array doc = true ->
  Client.export c name w = (inr out, w3) ->
  Forall step_ok (appendSteps c (map_range (Client.scannedNames doc)) doc w2) ->
  length (objects_raw out) = length (objects_raw doc) + size (Client.scannedNames doc).
Proof.
  intros Hsearch Hget Harr Hexport Hok.
  rewrite (export_found _ _ _ _ _ _ _ Hsearch Hget) in Hexport.
  destruct (appendIndexPatterns_objects _ _ _ _ _ _ Harr Hexport Hok)
    as (_ & Hraw & Hnames).
  rewrite Hraw, length_app, length_map. f_equal.
  rewrite <- (length_map step_name), Hnames.
  rewrite (map_range_perm (Client.scannedNames doc)). reflexivity.
Qed.

(** C6. When the search finds one dashboard, the export document is fetched
    and every lookup of the dependency loop succeeds, export returns a
    document and no error even when an append returned an error: the error
    of the append is not looked at. *)
Theorem export_ignores_append_error (c : client) (name : string) (d : dashboard)
    (doc : string) (w w1 w2 : World) :
  Client.searchDashboard c (quoted name) w = (inr [d], w1) ->
  Client.getDashboard c (ID d) w1 = (inr doc, w2) ->
  let steps := appendSteps c (map_range (Client.scannedNames doc)) doc w2 in
  length steps = length (map_range (Client.scannedNames doc)) ->
  Exists (fun st => step_err st <> None) steps ->
  exists (out : string) (w3 : World), Client.export c name w = (inr out, w3).
Proof.
  intros Hsearch Hget steps Hlookups _.
  rewrite (export_found _ _ _ _ _ _ _ Hsearch Hget).
  apply appendIndexPatterns_inr_steps. exact Hlookups.
Qed.

End Appending.

(** ** The requests of the two searches *)

Section FindRequests.
Context `{RT : Runtime}.

Lemma requests_http_Do (req : Request) (w : World) :
  requests (http_Do req w).2 = requests w ++ [req].
Proof.
  unfold http_Do. destruct (http_RoundTrip req (remote w)) as [r s]. simpl.
  apply (requests_emit_sent req (mkWorld s (stdin w) (events w))).
Qed.

Lemma searchDashboard_requests (c : client) (pattern : string) (w : World) :
  requests (Client.searchDashboard c pattern w).2
  = requests w ++
    match http_request_error "GET" (Client.searchDashboard_url c pattern) with
    | Some _ => []
    | None => [get_request c (Client.searchDashboard_url c pattern)]
    end.
Proof.
  unfold Client.searchDashboard, http_NewRequest.
  destruct (http_request_error "GET" (Client.searchDashboard_url c pattern)).
  - simpl. rewrite app_nil_r. reflexivity.
  - fold (get_request c (Client.searchDashboard_url c pattern)).
    rewrite bind_run, <- requests_http_Do.
    destruct (http_Do _ w).1 as [err | resp]; [reflexivity |].
    destruct (negb _); [reflexivity |].
    destruct (read_err (Body resp)); reflexivity.
Qed.

Lemma getIndexPattern_requests (c : client) (name : string) (w : World) :
  requests (Client.getIndexPattern c name w).2
  = requests w ++
    match http_request_error "GET" (Client.getIndexPattern_url c name) with
    | Some _ => []
    | None => [get_request c (Client.getIndexPattern_url c name)]
    end.
Proof.
  unfold Client.getIndexPattern, http_NewRequest.
  destruct (http_request_error "GET" (Client.getIndexPattern_url c name)).
  - simpl. rewrite app_nil_r. reflexivity.
  - fold (get_request c (Client.getIndexPattern_url c name)).
    rewrite bind_run, <- requests_http_Do.
    destruct (http_Do _ w).1 as [err | resp]; [reflexivity |].
    destruct (negb _); [reflexivity |].
    destruct (read_err (Body resp)); [reflexivity |].
    destruct (length _ =? 0)%nat; [reflexivity |].
    destruct (1 <? length _)%nat; [reflexivity |].
    destruct (Result_Array _); reflexivity.
Qed.

(** C8, as amended.  The dashboard search sends at most one request, a GET
    of the [_find] endpoint with the parameters [type=dashboard],
    [per_page=200], [search_fields=title] and the search pattern.  The
    index-pattern lookup sends at most one request, a GET of the [_find]
    endpoint with the parameters [type=index-pattern], [search_fields=title]
    and the quoted name, and no [per_page] parameter. *)
Theorem find_requests (c : client) (pattern name : string) (w : World) :
  (exists sent : list Request,
      requests (Client.searchDashboard c pattern w).2 = requests w ++ sent
      /\ length sent <= 1
      /\ Forall (fun req =>
           Method req = "GET"
           /\ URL req = Host c
                +:+ "/api/saved_objects/_find?type=dashboard&per_page=200&search_fields=title&search="
                +:+ pattern) sent)
  /\ (exists sent : list Request,
      requests (Client.getIndexPattern c name w).2 = requests w ++ sent
      /\ length sent <= 1
      /\ Forall (fun req =>
           Method req = "GET"
           /\ URL req = Host c
                +:+ "/api/saved_objects/_find?type=index-pattern&search_fields=title&search="
                +:+ dquote +:+ name +:+ dquote) sent).
Proof.
  split.
  - eexists. split; [apply searchDashboard_requests |].
    destruct (http_request_error _ _); simpl; split; try lia; repeat constructor.
  - eexists. split; [apply getIndexPattern_requests |].
    destruct (http_request_error _ _); simpl; split; try lia; repeat constructor.
Qed.

End FindRequests.

(** ** The commands of main.go *)

Section Commands.
Context `{RT : Runtime}.

Lemma string_append_assoc (a b c : string) : (a +:+ b) +:+ c = a +:+ b +:+ c.
Proof.
  induction a as [| ch a IH]; [reflexivity |].
  change (String ch ((a +:+ b) +:+ c) = String ch (a +:+ b +:+ c)).
  rewrite IH. reflexivity.
Qed.

Lemma list_line_eq (a b : string) :
  Main.list_line a b
  = a +:+ Main.spaces (40 - utf8_RuneCountInString a) +:+ " " +:+ b +:+ newline.
Proof. unfold Main.list_line, Main.pad_right. apply string_append_assoc. Qed.

Lemma writeDashboards_run (dashboards : list dashboard) (w : World) :
  exists w' : World,
    Main.writeDashboards dashboards w = (tt, w')
    /\ output w' = output w
         ++ map (fun d => Main.list_line (ID d) (Title (Attributes d))) dashboards
    /\ requests w' = requests w.
Proof.
  revert w. induction dashboards as [| d ds IH]; intros w; simpl.
  - exists w. rewrite app_nil_r. auto.
  - unfold bind, Stdout_Write.
    destruct (IH (emit (StdoutWrite (Main.list_line (ID d) (Title (Attributes d)))) w))
      as (w' & Hrun & Hout & Hreq).
    exists w'. split; [exact Hrun | split].
    + rewrite Hout, output_emit_write, <- app_assoc. reflexivity.
    + rewrite Hreq. unfold requests, emit. simpl. rewrite omap_app. simpl.
      apply app_nil_r.
Qed.

(** C9, as amended.  When the credentials are set and the search succeeds,
    with any number of dashboards, [list] returns no error, sends nothing
    more, and writes a header line and then one line for each dashboard, in
    the order of the search result.  A line is the ID (in the header, the
    word ID) followed by spaces up to a width of 40 runes, so the ID is
    left-justified and the padding is on its right, then one space, the
    title (in the header, the word NAME) and a line feed. *)
Theorem list_output (g : Main.globals) (args : list string) (dashboards : list dashboard)
    (w w1 : World) :
  Main.checkGlobals g = None ->
  Client.searchDashboard (Main.newClient g) (Main.Args_First args) w
    = (inr dashboards, w1) ->
  let line := fun a b : string =>
    a +:+ Main.spaces (40 - utf8_RuneCountInString a) +:+ " " +:+ b +:+ newline in
  exists w2 : World,
    Main.list g args w = (None, w2)
    /\ output w2 = output w1
         ++ line "ID" "NAME" :: map (fun d => line (ID d) (Title (Attributes d))) dashboards
    /\ requests w2 = requests w1.
Proof.
  intros Hglobals Hsearch line. unfold Main.list. rewrite Hglobals.
  rewrite (bind_run_eq _ _ _ _ _ Hsearch). unfold bind at 1, Stdout_Write at 1.
  destruct (writeDashboards_run dashboards (emit (StdoutWrite (Main.list_line "ID" "NAME")) w1))
    as (w2 & Hrun & Hout & Hreq).
  exists w2. unfold bind. rewrite Hrun. split; [reflexivity | split].
  - rewrite Hout, output_emit_write, <- app_assoc. simpl. f_equal.
    rewrite list_line_eq. f_equal.
    apply map_ext. intros d. apply list_line_eq.
  - rewrite Hreq. unfold requests, emit. simpl. rewrite omap_app. simpl.
    apply app_nil_r.
Qed.

(** The request [import] builds from the globals and the bytes of standard
    input. *)
Lemma import_events (g : Main.globals) (args : list string) (w : World) :
  read_err (stdin w) = None ->
  http_request_error "POST" (Main.host g +:+ "/api/kibana/dashboards/import?force=true")
    = None ->
  events (Main._import g args w).2
  = events w ++
    [StdinRead;
     Sent (mkRequest "POST" (Main.host g +:+ "/api/kibana/dashboards/import?force=true")
             (Some (read_data (stdin w)))
             (<[ "kbn-xsrf" := "true" ]> (<[ "Content-Type" := "application/json" ]> ∅))
             (Some (Main.username g, Main.password g)))].
Proof.
  intros Hread Hreq. unfold Main._import, bind at 1, ReadAll_Stdin. rewrite Hread.
  unfold Client._import, http_NewRequest. simpl. rewrite Hreq. simpl.
  rewrite !bind_run.
  match goal with
  | |- context [http_Do ?req ?w0] =>
      pose proof (http_Do_events req w0) as Hev; destruct (http_Do req w0) as [r w1]
  end.
  simpl in *.
  assert (Hw1 : events w1 = events w ++ [StdinRead; Sent
     (mkRequest "POST" (Main.host g +:+ "/api/kibana/dashboards/import?force=true")
             (Some (read_data (stdin w)))
             (<[ "kbn-xsrf" := "true" ]> (<[ "Content-Type" := "application/json" ]> ∅))
             (Some (Main.username g, Main.password g)))]).
  { rewrite Hev, <- app_assoc. reflexivity. }
  destruct r as [err | resp]; simpl; [exact Hw1 |].
  destruct (negb _); simpl; exact Hw1.
Qed.

Lemma import_exit_code (g : Main.globals) (args : list string) (w : World)
    (e : Main.ExitError) :
  (Main._import g args w).1 = Some e -> Main.exitCode e = 2%Z.
Proof.
  unfold Main._import, bind at 1, ReadAll_Stdin.
  destruct (read_err (stdin w)); simpl; [intros [= <-]; reflexivity |].
  rewrite bind_run.
  destruct (Client._import _ _ _).1; simpl; [intros [= <-]; reflexivity | discriminate].
Qed.

(** C10. For every host, username and password, empty or not, [import]
    first reads standard input and, when that is read and the request can be
    built, sends the POST request; an error it returns has exit code 2,
    never the code 1 of a validation error.  With the same globals, when one
    of the three is empty, [export] and [list] return the validation error
    of [checkGlobals] with exit code 1 and do nothing else. *)
Theorem import_skips_credential_check (g : Main.globals) (args : list string) (w : World) :
  (exists rest : list event,
      events (Main._import g args w).2 = events w ++ StdinRead :: rest)
  /\ (forall e : Main.ExitError,
        (Main._import g args w).1 = Some e -> Main.exitCode e = 2%Z)
  /\ (read_err (stdin w) = None ->
      http_request_error "POST" (Main.host g +:+ "/api/kibana/dashboards/import?force=true")
        = None ->
      events (Main._import g args w).2
      = events w ++
        [StdinRead;
         Sent (mkRequest "POST"
                 (Main.host g +:+ "/api/kibana/dashboards/import?force=true")
                 (Some (read_data (stdin w)))
                 (<[ "kbn-xsrf" := "true" ]> (<[ "Content-Type" := "application/json" ]> ∅))
                 (Some (Main.username g, Main.password g)))])
  /\ (forall e : Main.ExitError,
        Main.checkGlobals g = Some e ->
        Main.exitCode e = 1%Z
        /\ Main.export g args w = (Some e, w)
        /\ Main.list g args w = (Some e, w)).
Proof.
  split; [| split; [| split]].
  - unfold Main._import, bind at 1, ReadAll_Stdin.
    destruct (read_err (stdin w)); simpl; [exists []; reflexivity |].
    rewrite bind_run.
    assert (Hgrow : forall w0 : World,
      exists rest, events (Client._import (Main.newClient g) (read_data (stdin w)) w0).2
                   = events w0 ++ rest).
    { intros w0. unfold Client._import.
      destruct (http_NewRequest _ _ _) as [err | req]; simpl.
      - exists []. rewrite app_nil_r. reflexivity.
      - rewrite bind_run.
        match goal with
        | |- context [http_Do ?rq w0] =>
            pose proof (http_Do_events rq w0) as Hev; destruct (http_Do rq w0) as [r w1]
        end.
        simpl in *. eexists.
        destruct r as [err | resp]; simpl; [exact Hev |].
        destruct (negb _); simpl; exact Hev. }
    destruct (Hgrow (emit StdinRead w)) as (rest & Hrest).
    exists rest.
    destruct (Client._import _ _ _) as [r w1]; simpl in *.
    destruct r; simpl; rewrite Hrest, <- app_assoc; reflexivity.
  - apply import_exit_code.
  - apply import_events.
  - intros e He. unfold Main.export, Main.list. rewrite He.
    repeat split; try reflexivity.
    unfold Main.checkGlobals in He.
    destruct (String.eqb (Main.host g) ""); [injection He as <-; reflexivity |].
    destruct (String.eqb (Main.username g) ""); [injection He as <-; reflexivity |].
    destruct (String.eqb (Main.password g) ""); [injection He as <-; reflexivity |].
    discriminate.
Qed.

End Commands.

(** ** The reference runtime keeps the assumptions *)

Section ReferenceLaws.
Variable reply : Request -> error + Response.

Lemma ref_map_range_laws : @MapRangeLaws (Ref.runtime reply).
Proof. constructor. intros names. reflexivity. Qed.

Lemma ref_split_visState :
  Ref.split_path "objects.#.attributes.visState"
  = "objects" :: "#" :: Ref.split_path "attributes.visState".
Proof. reflexivity. Qed.

Lemma ref_split_objects : Ref.split_path "objects" = ["objects"].
Proof. reflexivity. Qed.

Lemma ref_each_element (rest : list string) (elems : list Ref.json) :
  map Ref.String_
    (map Some (omap (fun el => match Ref.parse (Ref.render el) with
                               | Some el' => Ref.eval rest el'
                               | None => None
                               end) elems))
  = omap (fun raw =>
            let r := match Ref.parse raw with
                     | Some j => Ref.eval rest j
                     | None => None
                     end in
            if Ref.Exists r then Some (Ref.String_ r) else None)
      (map Ref.Raw (map Some elems)).
Proof.
  induction elems as [| el elems IH]; [reflexivity |].
  cbn [map omap list_omap Ref.Raw].
  destruct (Ref.parse (Ref.render el)) as [el' |]; [| exact IH].
  destruct (Ref.eval rest el') as [v |]; [| exact IH].
  cbn [map Ref.Exists]. f_equal. exact IH.
Qed.

Lemma ref_gjson_laws : @GjsonLaws (Ref.runtime reply).
Proof.
  constructor. intros doc _ Harr.
  unfold objects_is_array, objects_raw, visState_of in *.
  cbn [gjson_Get Result_Array Result_String Result_Exists Result_IsArray Result_Raw
       Ref.runtime] in *.
  unfold Ref.Get in *. rewrite ref_split_visState. rewrite ref_split_objects in *.
  destruct (Ref.parse doc) as [j |]; [| discriminate].
  destruct j as [| | | | elems | members]; try discriminate.
  cbn [Ref.eval] in *.
  destruct (Ref.assoc "objects" members) as [v |]; [| discriminate].
  destruct v as [| | | | elems | ms]; try discriminate.
  cbn [Ref.eval]. change (String.eqb "#" "#") with true. cbn iota.
  destruct (Ref.split_path "attributes.visState") as [| key rest] eqn:Hsplit;
    [discriminate |].
  cbn [Ref.Array].
  apply ref_each_element.
Qed.

Lemma ref_sjson_laws : @SjsonLaws (Ref.runtime reply).
Proof.
  constructor. intros doc raw doc' _ _.
  unfold objects_is_array, objects_raw.
  cbn [gjson_Get Result_Array Result_IsArray Result_Raw sjson_SetRawBytes Ref.runtime].
  unfold Ref.SetRawBytes. change (String.eqb "objects.-1" "objects.-1") with true.
  cbn iota.
  destruct (Ref.append_object doc raw) as [out |]; [| discriminate].
  destruct (Ref.IsArray (Ref.Get out "objects")) eqn:Harr; [| discriminate].
  destruct (bool_decide _) eqn:Hdec; [| discriminate].
  intros [= <-]. apply bool_decide_eq_true in Hdec. auto.
Qed.

End ReferenceLaws.

(** ** The claims on the scenario *)

Section OnTheScenario.
Import Scenario.

Lemma export_objects_length_witness :
  length (objects_raw (RT := rt) (document (Client.export c "Sales" (start rt tt "")).1))
  = length (objects_raw (RT := rt) sales_export)
    + size (Client.scannedNames (RT := rt) sales_export).
Proof.
  apply (@export_objects_length rt (ref_map_range_laws _) (ref_sjson_laws _)
           c "Sales" d_sales sales_export _ (w0 rt tt) (w1 rt tt) (w2 rt tt)
           (Client.export c "Sales" (start rt tt "")).2).
  - vm_compute. reflexivity.
  - vm_compute. reflexivity.
  - vm_compute. reflexivity.
  - vm_compute. reflexivity.
  - replace (appendSteps c (map_range (Client.scannedNames sales_export)) sales_export
               (w2 rt tt)) with sales_steps by (vm_compute; reflexivity).
    repeat constructor; vm_compute; reflexivity.
Defined.

Lemma append_preserves_objects_witness :
  objects_raw (RT := rt)
    (document (Client.appendIndexPatterns (RT := rt) c ["metrics-*"; "logs-*"] sales_export
                 (start rt tt "")).1)
  = objects_raw (RT := rt) sales_export
    ++ [Ref.render metrics_pattern; Ref.render logs_pattern].
Proof.
  pose proof (@append_preserves_objects rt (ref_sjson_laws _) c ["metrics-*"; "logs-*"]
                sales_export
                (document (Client.appendIndexPatterns (RT := rt) c ["metrics-*"; "logs-*"]
                             sales_export (start rt tt "")).1)
                (start rt tt "")
                (Client.appendIndexPatterns (RT := rt) c ["metrics-*"; "logs-*"]
                   sales_export (start rt tt "")).2) as H.
  replace (appendSteps c ["metrics-*"; "logs-*"] sales_export (start rt tt ""))
    with sales_steps in H by (vm_compute; reflexivity).
  apply H.
  - vm_compute. reflexivity.
  - vm_compute. reflexivity.
  - repeat constructor; vm_compute; reflexivity.
Defined.

Lemma export_ignores_append_error_witness :
  exists (out : string) (w3 : World),
    Client.export (RT := rt_refusing) c "Sales" (start rt_refusing tt "") = (inr out, w3).
Proof.
  apply (@export_ignores_append_error rt_refusing c "Sales" d_sales sales_export
           (w0 rt_refusing tt) (w1 rt_refusing tt) (w2 rt_refusing tt)).
  - vm_compute. reflexivity.
  - vm_compute. reflexivity.
  - vm_compute. reflexivity.
  - replace (appendSteps c (map_range (Client.scannedNames sales_export)) sales_export
               (w2 rt_refusing tt)) with refused_steps by (vm_compute; reflexivity).
    left. simpl. discriminate.
Defined.

Lemma dependency_lookup_fail_fast_witness :
  Client.export (RT := rt_ambiguous) c "Sales" (start rt_ambiguous tt "")
  = (inl ("More than one index-pattern found matching: logs-*." +:+ newline),
     (Client.export (RT := rt_ambiguous) c "Sales" (start rt_ambiguous tt "")).2)
  /\ Client.getIndexPattern (RT := rt_missing) c "logs-*"
       (Client.appendIndexPatterns c ["metrics-*"] sales_export (w2 rt_missing tt)).2
  = (inl ("no index-pattern found matching: logs-*." +:+ newline),
     (Client.export (RT := rt_missing) c "Sales" (start rt_missing tt "")).2).
Proof.
  split.
  - refine (proj1 (@dependency_lookup_fail_fast rt_ambiguous c "Sales" "logs-*"
                     ["metrics-*"] [] d_sales sales_export
                     (document (Client.appendIndexPatterns c ["metrics-*"] sales_export
                                  (w2 rt_ambiguous tt)).1)
                     (w0 rt_ambiguous tt) (w1 rt_ambiguous tt) (w2 rt_ambiguous tt)
                     (Client.appendIndexPatterns c ["metrics-*"] sales_export
                        (w2 rt_ambiguous tt)).2 _ _ _ _) _ _ _);
      vm_compute; reflexivity.
  - refine (proj1 (proj2 (@dependency_lookup_fail_fast rt_missing c "Sales" "logs-*"
                     ["metrics-*"] [] d_sales sales_export
                     (document (Client.appendIndexPatterns c ["metrics-*"] sales_export
                                  (w2 rt_missing tt)).1)
                     (w0 rt_missing tt) (w1 rt_missing tt) (w2 rt_missing tt)
                     (Client.appendIndexPatterns c ["metrics-*"] sales_export
                        (w2 rt_missing tt)).2 _ _ _ _)
                    (mkResponse "200 OK" 200 (mkReadAll (found []) None))
                    _ _ _ _ _) _);
      vm_compute; reflexivity.
Defined.

Lemma export_dashboard_cardinality_witness :
  Client.export c "Nothing" (start rt tt "")
  = (inl ("no dashboard found matching: Nothing." +:+ newline),
     (Client.searchDashboard c (quoted "Nothing") (start rt tt "")).2)
  /\ Client.export c "Sal" (start rt tt "")
  = (inl ("more than one dashboard found matching: Sal." +:+ newline),
     (Client.searchDashboard c (quoted "Sal") (start rt tt "")).2).
Proof.
  split.
  - apply (@export_dashboard_cardinality rt c "Nothing" (start rt tt "") _ []).
    + vm_compute. reflexivity.
    + reflexivity.
  - apply (@export_dashboard_cardinality rt c "Sal" (start rt tt "") _
             [d_sales; d_sales_eu]).
    + vm_compute. reflexivity.
    + simpl. lia.
Defined.

Lemma scanner_names_set_witness :
  Client.scannedNames (RT := rt) sales_export = {[ "logs-*"; "metrics-*" ]}
  /\ Client.scannedNames (RT := rt) sales_export
     = Client.scannedNames (RT := rt) reordered_export
  /\ Client.scanForIndexPatterns (RT := rt) c sales_export = inr ["metrics-*"; "logs-*"].
Proof.
  destruct (@scanner_names_set rt (ref_map_range_laws _) (ref_gjson_laws _)
              c c sales_export reordered_export) as (_ & Hreorder & Hscenario).
  split; [| split].
  - apply Hscenario. vm_compute. reflexivity.
  - apply Hreorder; try (vm_compute; reflexivity).
    replace (objects_raw (RT := rt) reordered_export)
      with (rev (objects_raw (RT := rt) sales_export)) by (vm_compute; reflexivity).
    apply Permutation_rev.
  - vm_compute. reflexivity.
Defined.

Lemma scanner_skips_elements_witness :
  element_names (RT := rt) (Ref.render sales) = []
  /\ element_names (RT := rt) (Ref.render vis_notes) = []
  /\ (forall x : string,
        x ∈ Client.scannedNames (RT := rt) sales_export
        <-> exists raw : string,
              raw ∈ objects_raw (RT := rt) sales_export
              /\ x ∈ element_names (RT := rt) raw).
Proof.
  destruct (@scanner_skips_elements rt (ref_gjson_laws _) c sales_export)
    as (_ & Hunion & Hnone & Hpath).
  split; [| split].
  - apply Hnone. vm_compute. reflexivity.
  - apply Hpath. vm_compute. reflexivity.
  - apply Hunion; vm_compute; reflexivity.
Defined.

Lemma list_output_witness :
  exists w2 : World,
    Main.list (RT := rt) g ["Sal"] (start rt tt "") = (None, w2)
    /\ output w2
       = [ "ID" +:+ Main.spaces 38 +:+ " NAME" +:+ newline;
           "abc123" +:+ Main.spaces 34 +:+ " Sales" +:+ newline;
           "def456" +:+ Main.spaces 34 +:+ " Sales EU" +:+ newline ].
Proof.
  destruct (@list_output rt g ["Sal"] [d_sales; d_sales_eu] (start rt tt "")
              (Client.searchDashboard (RT := rt) c "Sal" (start rt tt "")).2)
    as (w2 & Hrun & Hout & _).
  - vm_compute. reflexivity.
  - vm_compute. reflexivity.
  - exists w2. split; [exact Hrun |]. rewrite Hout. vm_compute. reflexivity.
Defined.

Lemma find_requests_witness :
  Forall (fun req => URL req = kibana +:+
            "/api/saved_objects/_find?type=dashboard&per_page=200&search_fields=title&search=Sal")
    (requests (Client.searchDashboard (RT := rt) c "Sal" (start rt tt "")).2)
  /\ Forall (fun req => URL req = kibana +:+
            "/api/saved_objects/_find?type=index-pattern&search_fields=title&search="
            +:+ dquote +:+ "logs-*" +:+ dquote)
    (requests (Client.getIndexPattern (RT := rt) c "logs-*" (start rt tt "")).2).
Proof.
  destruct (@find_requests rt c "Sal" "logs-*" (start rt tt ""))
    as [(sent & Hsent & _ & Hall) (sent' & Hsent' & _ & Hall')].
  split.
  - rewrite Hsent. simpl. eapply Forall_impl; [exact Hall |].
    intros req [_ Hurl]. exact Hurl.
  - rewrite Hsent'. simpl. eapply Forall_impl; [exact Hall' |].
    intros req [_ Hurl]. exact Hurl.
Defined.

Lemma import_skips_credential_check_witness :
  Main._import (RT := rt) g_anonymous [] (start rt tt "{}")
  = (None,
     mkWorld tt (mkReadAll "{}" None)
       [StdinRead;
        Sent (mkRequest "POST" (kibana +:+ "/api/kibana/dashboards/import?force=true")
                (Some "{}")
                (<[ "kbn-xsrf" := "true" ]> (<[ "Content-Type" := "application/json" ]> ∅))
                (Some ("", "")))])
  /\ Main.export (RT := rt) g_anonymous ["Sales"] (start rt tt "{}")
     = (Some (Main.mkExitError "kibana username not defined" 1), start rt tt "{}")
  /\ Main.list (RT := rt) g_anonymous ["Sal"] (start rt tt "{}")
     = (Some (Main.mkExitError "kibana username not defined" 1), start rt tt "{}").
Proof.
  destruct (@import_skips_credential_check rt g_anonymous ["Sales"] (start rt tt "{}"))
    as (_ & _ & _ & Hcheck).
  destruct (@import_skips_credential_check rt g_anonymous ["Sal"] (start rt tt "{}"))
    as (_ & _ & _ & Hcheck').
  split; [vm_compute; reflexivity | split].
  - apply (Hcheck (Main.mkExitError "kibana username not defined" 1)). reflexivity.
  - apply (Hcheck' (Main.mkExitError "kibana username not defined" 1)). reflexivity.
Defined.

(** C2, as stated, fails on the text of the second error: with two index
    patterns titled [logs-*] the lookup finds two elements and export
    returns a message that starts with a capital M, so it does not start with
    the text of the claim. *)
Lemma index_pattern_message_counterexample :
  length (@Result_Array rt_ambiguous
            (gjson_Get (found [logs_pattern; logs_archive_pattern]) "saved_objects")) = 2
  /\ (Client.export (RT := rt_ambiguous) c "Sales" (start rt_ambiguous tt "")).1
     = inl ("More than one index-pattern found matching: logs-*." +:+ newline)
  /\ string_prefixb "more than one index-pattern found matching: logs-*"
       ("More than one index-pattern found matching: logs-*." +:+ newline) = false.
Proof. repeat split; vm_compute; reflexivity. Qed.

(** C7, as stated, fails for a [visState] that is not a string: the
    visualisation [vis_audit] has a [visState] that is a JSON object, so it
    has no [visState] string field, and the scanner finds its index
    pattern. *)
Lemma visState_object_counterexample :
  Ref.Get (Ref.render vis_audit) "attributes.visState"
  = Some (Ref.JObject
            [("params", Ref.JObject [("index_pattern", Ref.JString "audit-*")])])
  /\ element_names (RT := rt) (Ref.render vis_audit) = ["audit-*"]
  /\ Client.scanForIndexPatterns (RT := rt) c audit_export = inr ["audit-*"].
Proof. repeat split; vm_compute; reflexivity. Qed.

(** C8, as stated, fails for the index-pattern lookup: the third request of
    an export of [Sales] is to the [_find] endpoint and has no [per_page]
    parameter. *)
Lemma index_pattern_request_counterexample :
  map URL (requests (Client.export (RT := rt) c "Sales" (start rt tt "")).2)
  = [ kibana +:+ "/api/saved_objects/_find?type=dashboard&per_page=200&search_fields=title&search="
        +:+ dquote +:+ "Sales" +:+ dquote;
      kibana +:+ "/api/kibana/dashboards/export?dashboard=abc123";
      kibana +:+ "/api/saved_objects/_find?type=index-pattern&search_fields=title&search="
        +:+ dquote +:+ "metrics-*" +:+ dquote;
      kibana +:+ "/api/saved_objects/_find?type=index-pattern&search_fields=title&search="
        +:+ dquote +:+ "logs-*" +:+ dquote ]
  /\ string_containsb "/api/saved_objects/_find"
       (kibana +:+ "/api/saved_objects/_find?type=index-pattern&search_fields=title&search="
        +:+ dquote +:+ "metrics-*" +:+ dquote) = true
  /\ string_containsb "per_page"
       (kibana +:+ "/api/saved_objects/_find?type=index-pattern&search_fields=title&search="
        +:+ dquote +:+ "metrics-*" +:+ dquote) = false.
Proof. repeat split; vm_compute; reflexivity. Qed.

(** C9, as stated, fails on the side of the padding: the lines [list] writes
    start with the ID and have the spaces after it; none starts with a
    space, as a line with an ID of six characters padded on the left to 40
    would. *)
Lemma list_padding_counterexample :
  output (Main.list (RT := rt) g ["Sal"] (start rt tt "")).2
  = [ "ID" +:+ Main.spaces 38 +:+ " NAME" +:+ newline;
      "abc123" +:+ Main.spaces 34 +:+ " Sales" +:+ newline;
      "def456" +:+ Main.spaces 34 +:+ " Sales EU" +:+ newline ]
  /\ forallb (fun line => negb (string_prefixb " " line))
       (output (Main.list (RT := rt) g ["Sal"] (start rt tt "")).2) = true
  /\ string_prefixb " " (Main.spaces 34 +:+ "abc123" +:+ "Sales") = true.
Proof. repeat split; vm_compute; reflexivity. Qed.

End OnTheScenario.

(** * Further properties of the client and of the commands *)

(** ** The four functions that talk to the server, unfolded *)

Section Runs.
Context `{RT : Runtime}.

Lemma searchDashboard_run (c : client) (pattern : string) (w : World) :
  Client.searchDashboard c pattern w =
  match http_request_error "GET" (Client.searchDashboard_url c pattern) with
  | Some err => (inl err, w)
  | None =>
      let run := http_Do (get_request c (Client.searchDashboard_url c pattern)) w in
      match run.1 with
      | inl err => (inl err, run.2)
      | inr resp =>
          if negb (StatusCode resp =? http_StatusOK)%Z
          then (inl ("failed to search dashboard name " +:+ pattern +:+ ". Status:"
                     +:+ Status resp +:+ ". Response:" +:+ read_data (Body resp)
                     +:+ "." +:+ newline), run.2)
          else
            match read_err (Body resp) with
            | Some err => (inl err, run.2)
            | None =>
                (Client.unmarshalDashboards
                   (Result_Array (gjson_Get (read_data (Body resp)) "saved_objects")) [],
                 run.2)
            end
      end
  end.
Proof.
  unfold Client.searchDashboard, http_NewRequest.
  destruct (http_request_error "GET" (Client.searchDashboard_url c pattern));
    [reflexivity |].
  fold (get_request c (Client.searchDashboard_url c pattern)).
  rewrite bind_run. cbv zeta.
  destruct (http_Do _ w).1 as [err | resp]; [reflexivity |].
  destruct (negb _); [reflexivity |].
  destruct (read_err (Body resp)); reflexivity.
Qed.

Lemma getDashboard_run (c : client) (id : string) (w : World) :
  Client.getDashboard c id w =
  match http_request_error "GET" (Client.getDashboard_url c id) with
  | Some err => (inl err, w)
  | None =>
      let run := http_Do (get_request c (Client.getDashboard_url c id)) w in
      match run.1 with
      | inl err => (inl err, run.2)
      | inr resp =>
          if negb (StatusCode resp =? http_StatusOK)%Z
          then (inl ("failed to retrieve dashboard id " +:+ id +:+ ". Status:"
                     +:+ Status resp +:+ ". Response:" +:+ read_data (Body resp)
                     +:+ "." +:+ newline), run.2)
          else
            match read_err (Body resp) with
            | Some err => (inl err, run.2)
            | None => (inr (read_data (Body resp)), run.2)
            end
      end
  end.
Proof.
  unfold Client.getDashboard, http_NewRequest.
  destruct (http_request_error "GET" (Client.getDashboard_url c id)); [reflexivity |].
  fold (get_request c (Client.getDashboard_url c id)).
  rewrite bind_run. cbv zeta.
  destruct (http_Do _ w).1 as [err | resp]; [reflexivity |].
  destruct (negb _); [reflexivity |].
  destruct (read_err (Body resp)); reflexivity.
Qed.

Lemma getIndexPattern_run (c : client) (name : string) (w : World) :
  Client.getIndexPattern c name w =
  match http_request_error "GET" (Client.getIndexPattern_url c name) with
  | Some err => (inl err, w)
  | None =>
      let run := http_Do (get_request c (Client.getIndexPattern_url c name)) w in
      match run.1 with
      | inl err => (inl err, run.2)
      | inr resp =>
          if negb (StatusCode resp =? http_StatusOK)%Z
          then (inl ("failed to retrieve index-pattern title " +:+ name +:+ ". Status:"
                     +:+ Status resp +:+ ". Response: " +:+ read_data (Body resp)
                     +:+ "." +:+ newline), run.2)
          else
            match read_err (Body resp) with
            | Some err => (inl err, run.2)
            | None =>
                match Result_Array (gjson_Get (read_data (Body resp)) "saved_objects") with
                | [] => (inl ("no index-pattern found matching: " +:+ name +:+ "."
                              +:+ newline), run.2)
                | [p0] => (inr (Result_String p0), run.2)
                | _ :: _ :: _ =>
                    (inl ("More than one index-pattern found matching: " +:+ name
                          +:+ "." +:+ newline), run.2)
                end
            end
      end
  end.
Proof.
  unfold Client.getIndexPattern, http_NewRequest.
  destruct (http_request_error "GET" (Client.getIndexPattern_url c name)); [reflexivity |].
  fold (get_request c (Client.getIndexPattern_url c name)).
  rewrite bind_run. cbv zeta.
  destruct (http_Do _ w).1 as [err | resp]; [reflexivity |].
  destruct (negb _); [reflexivity |].
  destruct (read_err (Body resp)); [reflexivity |].
  destruct (Result_Array _) as [| p0 [| p1 rest]]; reflexivity.
Qed.

Lemma import_run (c : client) (payload : string) (w : World) :
  Client._import c payload w =
  match http_request_error "POST" (Host c +:+ "/api/kibana/dashboards/import?force=true") with
  | Some err => (Some err, w)
  | None =>
      let run := http_Do (import_request c payload) w in
      match run.1 with
      | inl err => (Some err, run.2)
      | inr resp =>
          if negb (StatusCode resp =? http_StatusOK)%Z
          then (Some ("failed to import dashboard. Status:" +:+ Status resp
                      +:+ ". Response:" +:+ read_data (Body resp) +:+ "." +:+ newline),
                run.2)
          else (None, run.2)
      end
  end.
Proof.
  unfold Client._import, http_NewRequest.
  destruct (http_request_error "POST" _); [reflexivity |].
  cbv zeta. rewrite bind_run.
  change (Header_Set _ "kbn-xsrf" "true") with
    (Header_Set (Header_Set
       (mkRequest "POST" (Host c +:+ "/api/kibana/dashboards/import?force=true")
          (Some payload) ∅ None) "Content-Type" "application/json") "kbn-xsrf" "true").
  fold (import_request c payload).
  destruct (http_Do _ w).1 as [err | resp]; [reflexivity |].
  destruct (negb _); reflexivity.
Qed.

Lemma status_ok_iff (resp : Response) :
  negb (StatusCode resp =? http_StatusOK)%Z = false <-> StatusCode resp = 200%Z.
Proof.
  unfold http_StatusOK. destruct (Z.eqb_spec (StatusCode resp) 200); simpl;
    split; congruence.
Qed.

Lemma http_Do_world (req : Request) (w : World) :
  stdin (http_Do req w).2 = stdin w
  /\ events (http_Do req w).2 = events w ++ [Sent req].
Proof. unfold http_Do. destruct (http_RoundTrip req (remote w)); split; reflexivity. Qed.

End Runs.

(** ** What the client does to the world *)

Section ClientEffects.
Context `{RT : Runtime}.

Lemma only_gets_refl (c : client) (w : World) : only_gets c w w.
Proof. split; [reflexivity |]. exists []. simpl. rewrite app_nil_r. reflexivity. Qed.


Lemma only_gets_Do (c : client) (url : string) (w : World) :
  only_gets c w (http_Do (get_request c url) w).2.
Proof.
  destruct (http_Do_world (get_request c url) w) as [Hin Hev].
  split; [exact Hin |]. exists [url]. exact Hev.
Qed.

Lemma searchDashboard_only_gets (c : client) (pattern : string) (w : World) :
  only_gets c w (Client.searchDashboard c pattern w).2.
Proof.
  rewrite searchDashboard_run.
  destruct (http_request_error _ _); [apply only_gets_refl |]. cbv zeta.
  pose proof (only_gets_Do c (Client.searchDashboard_url c pattern) w) as Hdo.
  destruct (http_Do _ w).1 as [err | resp]; [exact Hdo |].
  destruct (negb _); [exact Hdo |].
  destruct (read_err (Body resp)); exact Hdo.
Qed.





Lemma only_gets_output (c : client) (w w' : World) :
  only_gets c w w' -> output w' = output w.
Proof.
  intros [_ (urls & Hev)]. unfold output. rewrite Hev, omap_app. clear Hev.
  replace (omap _ (sent_gets c urls)) with (@nil string); [apply app_nil_r |].
  induction urls as [| url urls IH]; [reflexivity | exact IH].
Qed.


End ClientEffects.

(** ** The outcomes of an export *)

Section ExportOutcomes.
Context `{RT : Runtime}.

(** An export that does not stop at the search or at the fetch. *)
Lemma export_search_cases (c : client) (name : string) (w : World) :
  Client.export c name w =
  match Client.searchDashboard c (quoted name) w with
  | (inl err, w1) => (inl err, w1)
  | (inr [], w1) =>
      (inl ("no dashboard found matching: " +:+ name +:+ "." +:+ newline), w1)
  | (inr [d], w1) =>
      match Client.getDashboard c (ID d) w1 with
      | (inl err, w2) => (inl err, w2)
      | (inr doc, w2) =>
          Client.appendIndexPatterns c (map_range (Client.scannedNames doc)) doc w2
      end
  | (inr (_ :: _ :: _), w1) =>
      (inl ("more than one dashboard found matching: " +:+ name +:+ "." +:+ newline), w1)
  end.
Proof.
  unfold Client.export. rewrite bind_run.
  destruct (Client.searchDashboard c (quoted name) w) as [[err | result] w1];
    [reflexivity |].
  destruct result as [| d [| d' rest]]; try reflexivity.
  cbn [fst snd length Nat.eqb Nat.ltb Nat.leb]. rewrite bind_run.
  destruct (Client.getDashboard c (ID d) w1) as [[err | doc] w2]; reflexivity.
Qed.

(** A loop that returns an error stopped at a lookup, after the lookups
    before it had succeeded. *)
Lemma appendIndexPatterns_inl_inv (c : client) (names : list string) (doc : string)
    (w w' : World) (e : error) :
  Client.appendIndexPatterns c names doc w = (inl e, w') ->
  exists (pre post : list string) (name doc1 : string) (w1 : World),
    names = pre ++ name :: post
    /\ Client.appendIndexPatterns c pre doc w = (inr doc1, w1)
    /\ Client.getIndexPattern c name w1 = (inl e, w').
Proof.
  revert doc w. induction names as [| name names IH]; intros doc w Hrun.
  - discriminate.
  - rewrite appendIndexPatterns_cons in Hrun.
    destruct (Client.getIndexPattern c name w) as [[err | raw] w1] eqn:Hlookup.
    + injection Hrun as <- <-. exists [], names, name, doc, w. auto.
    + destruct (IH _ _ Hrun) as (pre & post & n & doc1 & w2 & -> & Hpre & Hfail).
      exists (name :: pre), post, n, doc1, w2. repeat split; [| exact Hfail].
      rewrite appendIndexPatterns_cons, Hlookup. exact Hpre.
Qed.

(** X2. Export returns a document exactly when the search for the quoted
    name finds exactly one dashboard, the export document of its [id] is
    fetched, and the dependency loop over the names of the scanner returns
    that document. *)
Theorem export_returns_document_iff (c : client) (name out : string) (w w' : World) :
  Client.export c name w = (inr out, w')
  <-> exists (d : dashboard) (doc : string) (w1 w2 : World),
        Client.searchDashboard c (quoted name) w = (inr [d], w1)
        /\ Client.getDashboard c (ID d) w1 = (inr doc, w2)
        /\ Client.appendIndexPatterns c (map_range (Client.scannedNames doc)) doc w2
           = (inr out, w').
Proof.
  rewrite export_search_cases. split.
  - destruct (Client.searchDashboard c (quoted name) w) as [[err | result] w1];
      [discriminate |].
    destruct result as [| d [| d' rest]]; try discriminate.
    destruct (Client.getDashboard c (ID d) w1) as [[err | doc] w2] eqn:Hget;
      [discriminate |].
    intros Hloop. exists d, doc, w1, w2. auto.
  - intros (d & doc & w1 & w2 & -> & -> & Hloop). exact Hloop.
Qed.

(** X3. Export returns an error in exactly five cases, and the error and the
    world are those of the step that failed: the search failed; the search
    found no dashboard; it found more than one; the fetch of the export
    document failed; or, after the lookups of the names before it had
    succeeded, the lookup of one index-pattern name failed. *)
Theorem export_error_cases (c : client) (name : string) (w w' : World) (e : error) :
  Client.export c name w = (inl e, w')
  <-> Client.searchDashboard c (quoted name) w = (inl e, w')
      \/ (Client.searchDashboard c (quoted name) w = (inr [], w')
          /\ e = "no dashboard found matching: " +:+ name +:+ "." +:+ newline)
      \/ (exists result : list dashboard,
            Client.searchDashboard c (quoted name) w = (inr result, w')
            /\ 1 < length result
            /\ e = "more than one dashboard found matching: " +:+ name +:+ "." +:+ newline)
      \/ (exists (d : dashboard) (w1 : World),
            Client.searchDashboard c (quoted name) w = (inr [d], w1)
            /\ Client.getDashboard c (ID d) w1 = (inl e, w'))
      \/ (exists (d : dashboard) (doc doc1 : string) (w1 w2 w3 : World)
                 (pre post : list string) (failed : string),
            Client.searchDashboard c (quoted name) w = (inr [d], w1)
            /\ Client.getDashboard c (ID d) w1 = (inr doc, w2)
            /\ map_range (Client.scannedNames doc) = pre ++ failed :: post
            /\ Client.appendIndexPatterns c pre doc w2 = (inr doc1, w3)
            /\ Client.getIndexPattern c failed w3 = (inl e, w')).
Proof.
  rewrite export_search_cases. split.
  - destruct (Client.searchDashboard c (quoted name) w) as [[err | result] w1].
    { intros [= -> ->]. left. reflexivity. }
    destruct result as [| d [| d' rest]].
    { intros [= <- ->]. right; left. auto. }
    2: { intros [= <- ->]. right; right; left. eexists. repeat split. simpl. lia. }
    destruct (Client.getDashboard c (ID d) w1) as [[err | doc] w2] eqn:Hget.
    { intros [= -> ->]. right; right; right; left. exists d, w1. auto. }
    intros Hloop. right; right; right; right.
    destruct (appendIndexPatterns_inl_inv _ _ _ _ _ _ Hloop)
      as (pre & post & failed & doc1 & w3 & Hnames & Hpre & Hfail).
    exists d, doc, doc1, w1, w2, w3, pre, post, failed. auto.
  - intros [Hsearch | [[Hsearch ->] | [(result & Hsearch & Hlen & ->) | [Hfetch | Hlookup]]]].
    + rewrite Hsearch. reflexivity.
    + rewrite Hsearch. reflexivity.
    + rewrite Hsearch. destruct result as [| d [| d' rest]]; simpl in Hlen;
        [lia | lia | reflexivity].
    + destruct Hfetch as (d & w1 & -> & ->). reflexivity.
    + destruct Hlookup as (d & doc & doc1 & w1 & w2 & w3 & pre & post & failed
                           & -> & -> & -> & Hpre & Hfail).
      exact (appendIndexPatterns_lookup_fails _ _ _ _ _ _ _ _ _ _ Hpre Hfail).
Qed.






(** X5. When no [visState] value of the fetched export document has the path
    [params.index_pattern], export looks nothing up and returns the fetched
    document as it is, byte for byte, in the world the fetch left. *)
Theorem export_without_index_patterns `{!MapRangeLaws} (c : client) (name doc : string)
    (d : dashboard) (w w1 w2 : World) :
  Client.searchDashboard c (quoted name) w = (inr [d], w1) ->
  Client.getDashboard c (ID d) w1 = (inr doc, w2) ->
  Forall (fun val => index_pattern_of (Result_String val) = None)
    (Result_Array (gjson_Get doc "objects.#.attributes.visState")) ->
  Client.scanForIndexPatterns c doc = inr []
  /\ Client.export c name w = (inr doc, w2).
Proof.
  intros Hsearch Hget Hnone.
  assert (Hempty : Client.scannedNames doc = ∅).
  { rewrite scannedNames_spec.
    replace (omap index_pattern_of _) with (@nil string); [reflexivity |].
    induction Hnone as [| val vals Hval _ IH]; [reflexivity |].
    simpl. rewrite Hval. exact IH. }
  assert (Hnil : map_range (Client.scannedNames doc) = []).
  { apply Permutation_nil_r. rewrite (map_range_perm (Client.scannedNames doc)), Hempty.
    rewrite elements_empty. reflexivity. }
  split.
  - unfold Client.scanForIndexPatterns. rewrite Hnil. reflexivity.
  - rewrite (export_found _ _ _ _ _ _ _ Hsearch Hget), Hnil. reflexivity.
Qed.

End ExportOutcomes.

(** ** Searching and looking up *)

Section Replies.
Context `{RT : Runtime}.


Lemma unmarshalDashboards_fails (pre post : list Result) (val : Result)
    (acc : list dashboard) (e : error) :
  Forall (fun v => exists d, json_Unmarshal (Result_String v) = inr d) pre ->
  json_Unmarshal (Result_String val) = inl e ->
  Client.unmarshalDashboards (pre ++ val :: post) acc
  = inl ("could not parse dashboard definition: " +:+ e).
Proof.
  intros Hpre Hval. revert acc.
  induction Hpre as [| v pre (d & Hv) _ IH]; intros acc; simpl.
  - rewrite Hval. reflexivity.
  - rewrite Hv. apply IH.
Qed.

Lemma searchDashboard_replied (c : client) (pattern : string) (w w1 : World)
    (resp : Response) :
  http_request_error "GET" (Client.searchDashboard_url c pattern) = None ->
  http_Do (get_request c (Client.searchDashboard_url c pattern)) w = (inr resp, w1) ->
  StatusCode resp = 200%Z ->
  read_err (Body resp) = None ->
  Client.searchDashboard c pattern w
  = (Client.unmarshalDashboards
       (Result_Array (gjson_Get (read_data (Body resp)) "saved_objects")) [], w1).
Proof.
  intros Hreq Hdo Hstatus Hread.
  rewrite searchDashboard_run, Hreq, Hdo. cbn [fst snd].
  rewrite (proj2 (status_ok_iff resp) Hstatus), Hread. reflexivity.
Qed.


(** X7. A search answered with status 200 in which an element of
    [saved_objects] does not unmarshal, after elements that do, returns the
    error of that element wrapped as [could not parse dashboard definition],
    and none of the dashboards read before it. *)
Theorem searchDashboard_parse_failure (c : client) (pattern : string) (w w1 : World)
    (resp : Response) (pre post : list Result) (val : Result) (e : error) :
  http_request_error "GET" (Client.searchDashboard_url c pattern) = None ->
  http_Do (get_request c (Client.searchDashboard_url c pattern)) w = (inr resp, w1) ->
  StatusCode resp = 200%Z ->
  read_err (Body resp) = None ->
  Result_Array (gjson_Get (read_data (Body resp)) "saved_objects") = pre ++ val :: post ->
  Forall (fun v => exists d, json_Unmarshal (Result_String v) = inr d) pre ->
  json_Unmarshal (Result_String val) = inl e ->
  Client.searchDashboard c pattern w
  = (inl ("could not parse dashboard definition: " +:+ e), w1).
Proof.
  intros Hreq Hdo Hstatus Hread Hvals Hpre Hval.
  rewrite (searchDashboard_replied _ _ _ _ _ Hreq Hdo Hstatus Hread), Hvals.
  rewrite (unmarshalDashboards_fails _ _ _ _ _ Hpre Hval). reflexivity.
Qed.

(** X8. A reply with another status than 200 makes the search, the fetch and
    the lookup fail with an error that holds the status line and the bytes
    read of the body, whether or not the body could be read to its end. *)
Theorem status_not_ok (c : client) (arg : string) (w w1 : World) (resp : Response) :
  StatusCode resp <> 200%Z ->
  (http_request_error "GET" (Client.searchDashboard_url c arg) = None ->
   http_Do (get_request c (Client.searchDashboard_url c arg)) w = (inr resp, w1) ->
   Client.searchDashboard c arg w
   = (inl ("failed to search dashboard name " +:+ arg +:+ ". Status:" +:+ Status resp
           +:+ ". Response:" +:+ read_data (Body resp) +:+ "." +:+ newline), w1))
  /\ (http_request_error "GET" (Client.getDashboard_url c arg) = None ->
      http_Do (get_request c (Client.getDashboard_url c arg)) w = (inr resp, w1) ->
      Client.getDashboard c arg w
      = (inl ("failed to retrieve dashboard id " +:+ arg +:+ ". Status:" +:+ Status resp
              +:+ ". Response:" +:+ read_data (Body resp) +:+ "." +:+ newline), w1))
  /\ (http_request_error "GET" (Client.getIndexPattern_url c arg) = None ->
      http_Do (get_request c (Client.getIndexPattern_url c arg)) w = (inr resp, w1) ->
      Client.getIndexPattern c arg w
      = (inl ("failed to retrieve index-pattern title " +:+ arg +:+ ". Status:"
              +:+ Status resp +:+ ". Response: " +:+ read_data (Body resp)
              +:+ "." +:+ newline), w1)).
Proof.
  intros Hstatus.
  assert (Hnot : negb (StatusCode resp =? http_StatusOK)%Z = true).
  { destruct (negb _) eqn:Hok; [reflexivity |].
    apply status_ok_iff in Hok. contradiction. }
  split; [| split]; intros Hreq Hdo.
  - rewrite searchDashboard_run, Hreq, Hdo. cbn [fst snd]. rewrite Hnot. reflexivity.
  - rewrite getDashboard_run, Hreq, Hdo. cbn [fst snd]. rewrite Hnot. reflexivity.
  - rewrite getIndexPattern_run, Hreq, Hdo. cbn [fst snd]. rewrite Hnot. reflexivity.
Qed.

(** X9. The lookup of an index pattern returns bytes exactly when the
    request was built and sent, the reply has status 200 and a body read to
    its end, and [saved_objects] has exactly one element; the bytes are the
    text of that element. *)
Theorem getIndexPattern_returns_iff (c : client) (name raw : string) (w w' : World) :
  Client.getIndexPattern c name w = (inr raw, w')
  <-> http_request_error "GET" (Client.getIndexPattern_url c name) = None
      /\ exists (resp : Response) (p0 : Result),
           http_Do (get_request c (Client.getIndexPattern_url c name)) w = (inr resp, w')
           /\ StatusCode resp = 200%Z
           /\ read_err (Body resp) = None
           /\ Result_Array (gjson_Get (read_data (Body resp)) "saved_objects") = [p0]
           /\ raw = Result_String p0.
Proof.
  rewrite getIndexPattern_run. split.
  - destruct (http_request_error _ _); [discriminate |]. cbv zeta.
    destruct (http_Do _ w) as [[err | resp] w1] eqn:Hdo; cbn [fst snd];
      [discriminate |].
    destruct (negb _) eqn:Hok; [discriminate |]. apply status_ok_iff in Hok.
    destruct (read_err (Body resp)) eqn:Hread; [discriminate |].
    destruct (Result_Array _) as [| p0 [| p1 rest]] eqn:Hvals; try discriminate.
    intros [= <- <-]. split; [reflexivity |]. exists resp, p0. auto.
  - intros (-> & resp & p0 & Hdo & Hstatus & Hread & Hvals & ->).
    rewrite Hdo. cbn [fst snd].
    rewrite (proj2 (status_ok_iff resp) Hstatus), Hread, Hvals. reflexivity.
Qed.

(** X10. The fetch of an export document returns bytes exactly when the
    request was built and sent and the reply has status 200 and a body read
    to its end; the bytes are that body, unchanged. *)
Theorem getDashboard_returns_iff (c : client) (id doc : string) (w w' : World) :
  Client.getDashboard c id w = (inr doc, w')
  <-> http_request_error "GET" (Client.getDashboard_url c id) = None
      /\ exists resp : Response,
           http_Do (get_request c (Client.getDashboard_url c id)) w = (inr resp, w')
           /\ StatusCode resp = 200%Z
           /\ Body resp = mkReadAll doc None.
Proof.
  rewrite getDashboard_run. split.
  - destruct (http_request_error _ _); [discriminate |]. cbv zeta.
    destruct (http_Do _ w) as [[err | resp] w1] eqn:Hdo; cbn [fst snd];
      [discriminate |].
    destruct (negb _) eqn:Hok; [discriminate |]. apply status_ok_iff in Hok.
    destruct resp as [status code [data rerr]]. cbn [Body read_err read_data] in *.
    destruct rerr; [discriminate |].
    intros [= <- <-]. split; [reflexivity |]. eexists. repeat split; eauto.
  - intros (-> & resp & Hdo & Hstatus & Hbody).
    rewrite Hdo. cbn [fst snd].
    rewrite (proj2 (status_ok_iff resp) Hstatus), Hbody. reflexivity.
Qed.

(** X11. The import of a payload returns no error exactly when the request
    was built and sent and the reply has status 200, whatever reading the
    body of the reply gave; the request is a POST of the payload to the
    import endpoint with [force=true], the content type of JSON, the
    [kbn-xsrf] field and the credentials of the client. *)
Theorem import_succeeds_iff (c : client) (payload : string) (w w' : World) :
  Client._import c payload w = (None, w')
  <-> http_request_error "POST" (Host c +:+ "/api/kibana/dashboards/import?force=true")
      = None
      /\ exists resp : Response,
           http_Do
             (mkRequest "POST" (Host c +:+ "/api/kibana/dashboards/import?force=true")
                (Some payload)
                (<[ "kbn-xsrf" := "true" ]> (<[ "Content-Type" := "application/json" ]> ∅))
                (Some (Username c, Password c))) w = (inr resp, w')
           /\ StatusCode resp = 200%Z.
Proof.
  rewrite import_run. change (import_request c payload) with
    (mkRequest "POST" (Host c +:+ "/api/kibana/dashboards/import?force=true")
       (Some payload)
       (<[ "kbn-xsrf" := "true" ]> (<[ "Content-Type" := "application/json" ]> ∅))
       (Some (Username c, Password c))).
  split.
  - destruct (http_request_error _ _); [discriminate |]. cbv zeta.
    destruct (http_Do _ w) as [[err | resp] w1] eqn:Hdo; cbn [fst snd];
      [discriminate |].
    destruct (negb _) eqn:Hok; [discriminate |]. apply status_ok_iff in Hok.
    intros [= <-]. split; [reflexivity |]. exists resp. auto.
  - intros (-> & resp & Hdo & Hstatus).
    rewrite Hdo. cbn [fst snd].
    rewrite (proj2 (status_ok_iff resp) Hstatus). reflexivity.
Qed.

End Replies.

(** ** The actions and their exit codes *)

Section Actions.
Context `{RT : Runtime}.

Lemma checkGlobals_None (g : Main.globals) :
  Main.checkGlobals g = None
  <-> Main.host g <> "" /\ Main.username g <> "" /\ Main.password g <> "".
Proof.
  unfold Main.checkGlobals.
  destruct (String.eqb_spec (Main.host g) ""); [split; [discriminate | tauto] |].
  destruct (String.eqb_spec (Main.username g) ""); [split; [discriminate | tauto] |].
  destruct (String.eqb_spec (Main.password g) ""); [split; [discriminate | tauto] |].
  tauto.
Qed.

Lemma checkGlobals_Some (g : Main.globals) (e : Main.ExitError) :
  Main.checkGlobals g = Some e -> Main.exitCode e = 1%Z.
Proof.
  unfold Main.checkGlobals.
  destruct (String.eqb (Main.host g) ""); [intros [= <-]; reflexivity |].
  destruct (String.eqb (Main.username g) ""); [intros [= <-]; reflexivity |].
  destruct (String.eqb (Main.password g) ""); [intros [= <-]; reflexivity |].
  discriminate.
Qed.

(** The action [export], by the validation and the outcome of the client. *)
Lemma main_export_run (g : Main.globals) (args : list string) (w : World) :
  Main.export g args w =
  match Main.checkGlobals g with
  | Some e => (Some e, w)
  | None =>
      if String.eqb (Main.Args_First args) ""
      then (Some (Main.mkExitError "dashboard name missing" 1), w)
      else
        match Client.export (Main.newClient g) (Main.Args_First args) w with
        | (inl err, w1) => (Some (Main.mkExitError err 2), w1)
        | (inr doc, w1) => (None, emit (StdoutWrite doc) w1)
        end
  end.
Proof.
  unfold Main.export. destruct (Main.checkGlobals g); [reflexivity |].
  destruct (String.eqb _ ""); [reflexivity |].
  rewrite bind_run.
  destruct (Client.export _ _ w) as [[err | doc] w1]; reflexivity.
Qed.

(** X12. The action [export] returns an error with exit code 1 exactly when
    the host, the username or the password is empty or the first argument is
    missing or empty; it has then done nothing: the world is the one it
    started in. *)
Theorem export_validation (g : Main.globals) (args : list string) (w : World) :
  (Main.host g = "" \/ Main.username g = "" \/ Main.password g = ""
   \/ Main.Args_First args = ""
   <-> exists (e : Main.ExitError) (w' : World),
         Main.export g args w = (Some e, w') /\ Main.exitCode e = 1%Z)
  /\ (forall (e : Main.ExitError) (w' : World),
        Main.export g args w = (Some e, w') -> Main.exitCode e = 1%Z -> w' = w).
Proof.
  rewrite main_export_run.
  destruct (Main.checkGlobals g) as [e0 |] eqn:Hcheck.
  - pose proof (checkGlobals_Some g e0 Hcheck) as Hcode. split.
    + split; [intros _; exists e0, w; auto |].
      intros _. destruct (checkGlobals_None g) as [_ Hvalid].
      destruct (String.eqb_spec (Main.host g) ""); [tauto |].
      destruct (String.eqb_spec (Main.username g) ""); [tauto |].
      destruct (String.eqb_spec (Main.password g) ""); [tauto |].
      rewrite Hvalid in Hcheck by tauto. discriminate.
    + intros e w' [= _ <-] _. reflexivity.
  - apply checkGlobals_None in Hcheck as (Hhost & Huser & Hpass).
    destruct (String.eqb_spec (Main.Args_First args) "") as [Hname | Hname].
    + split; [| intros e w' [= _ <-] _; reflexivity].
      split; [intros _; eexists _, w; split; reflexivity | tauto].
    + destruct (Client.export _ _ w) as [[err | doc] w1]; split.
      * split; [tauto |]. intros (e & w' & [= <- _] & Hcode). discriminate.
      * intros e w' [= <- _] Hcode. discriminate.
      * split; [tauto |]. intros (e & w' & H & _). discriminate.
      * intros e w' H. discriminate.
Qed.


(** X14. When the action [list] returns an error it has written nothing,
    not even the header line: either the error is a validation error with
    exit code 1 and nothing was done, or it is the error of the search,
    with exit code 2. *)
Theorem list_failure (g : Main.globals) (args : list string) (w w' : World)
    (e : Main.ExitError) :
  Main.list g args w = (Some e, w') ->
  output w' = output w
  /\ ((Main.exitCode e = 1%Z /\ w' = w)
      \/ (Main.exitCode e = 2%Z
          /\ Client.searchDashboard (Main.newClient g) (Main.Args_First args) w
             = (inl (Main.message e), w'))).
Proof.
  unfold Main.list.
  destruct (Main.checkGlobals g) as [e0 |] eqn:Hcheck.
  { intros [= <- <-]. split; [reflexivity |].
    left. split; [exact (checkGlobals_Some g e0 Hcheck) | reflexivity]. }
  rewrite bind_run.
  pose proof (searchDashboard_only_gets (Main.newClient g) (Main.Args_First args) w)
    as Hgets.
  destruct (Client.searchDashboard _ _ w) as [[err | ds] w1]; cbn [fst snd] in *.
  - intros [= <- <-]. split; [exact (only_gets_output _ _ _ Hgets) |].
    right. split; reflexivity.
  - unfold bind at 1, Stdout_Write at 1. unfold bind.
    destruct (writeDashboards_run ds (emit (StdoutWrite (Main.list_line "ID" "NAME")) w1))
      as (w2 & Hrun & _). rewrite Hrun. discriminate.
Qed.

Lemma requests_emit_other (e : event) (w : World) :
  (forall req, e <> Sent req) -> requests (emit e w) = requests w.
Proof.
  intros Hother. unfold requests, emit. simpl. rewrite omap_app. simpl.
  destruct e; [exfalso; exact (Hother req eq_refl) | apply app_nil_r | apply app_nil_r].
Qed.

(** The action [import], by the reading of standard input and the outcome
    of the client. *)
Lemma main_import_run (g : Main.globals) (args : list string) (w : World) :
  Main._import g args w =
  match read_err (stdin w) with
  | Some err =>
      (Some (Main.mkExitError ("could not read import input: " +:+ err) 2),
       emit StdinRead w)
  | None =>
      match Client._import (Main.newClient g) (read_data (stdin w)) (emit StdinRead w) with
      | (Some err, w1) => (Some (Main.mkExitError err 2), w1)
      | (None, w1) => (None, w1)
      end
  end.
Proof.
  unfold Main._import, bind at 1, ReadAll_Stdin.
  destruct (read_err (stdin w)); [reflexivity |].
  rewrite bind_run.
  destruct (Client._import _ _ _) as [[err |] w1]; reflexivity.
Qed.

(** X15. The action [import] sends one request, the POST of the bytes of
    standard input, when standard input is read to its end and the request
    can be built; otherwise it sends nothing.  A failure to read standard
    input gives the error [could not read import input], with exit code 2. *)
Theorem import_requests (g : Main.globals) (args : list string) (w : World) :
  requests (Main._import g args w).2
  = requests w ++
    match read_err (stdin w),
          http_request_error "POST"
            (Main.host g +:+ "/api/kibana/dashboards/import?force=true") with
    | None, None => [import_request (Main.newClient g) (read_data (stdin w))]
    | _, _ => []
    end
  /\ (forall err : error,
        read_err (stdin w) = Some err ->
        (Main._import g args w).1
        = Some (Main.mkExitError ("could not read import input: " +:+ err) 2)).
Proof.
  rewrite main_import_run.
  assert (Hread : requests (emit StdinRead w) = requests w)
    by (apply requests_emit_other; discriminate).
  destruct (read_err (stdin w)) as [err |]; cbn [fst snd].
  { split; [rewrite Hread, app_nil_r; reflexivity |]. intros ? [= <-]. reflexivity. }
  split; [| discriminate].
  rewrite import_run. cbn [Main.newClient Host].
  destruct (http_request_error "POST" _); cbn [fst snd].
  { rewrite Hread, app_nil_r. reflexivity. }
  cbv zeta.
  pose proof (requests_http_Do
                (import_request (Main.newClient g) (read_data (stdin w)))
                (emit StdinRead w)) as Hdo.
  rewrite Hread in Hdo. cbn [Main.newClient] in Hdo.
  destruct (http_Do _ (emit StdinRead w)) as [[err | resp] w1]; cbn [fst snd] in *;
    [exact Hdo |].
  destruct (negb _); exact Hdo.
Qed.

End Actions.

(** ** A bound on the scanner *)

Section ScannerBound.
Context `{RT : Runtime}.

Lemma index_patterns_found (vals : list Result) (x : string) :
  In x (omap index_pattern_of (map Result_String vals))
  -> exists val, In val vals /\ index_pattern_of (Result_String val) = Some x.
Proof.
  induction vals as [| val vals IH]; simpl; [tauto |].
  destruct (index_pattern_of (Result_String val)) as [y |] eqn:Hval.
  - intros [<- | Hin]; [exists val; auto |].
    destruct (IH Hin) as (v & Hv & Hx). exists v. auto.
  - intros Hin. destruct (IH Hin) as (v & Hv & Hx). exists v. auto.
Qed.

Lemma length_omap_le {A B : Type} (f : A -> option B) (l : list A) :
  length (omap f l) <= length l.
Proof.
  induction l as [| a l IH]; [reflexivity |].
  change (omap f (a :: l))
    with (match f a with Some b => b :: omap f l | None => omap f l end).
  destruct (f a); simpl; lia.
Qed.

(** X16. The scanner returns at most one name for each [visState] value of
    the document, so export makes at most as many lookups as the document
    has such values; and every name it returns is read in one of them. *)
Theorem scanner_bound `{!MapRangeLaws} (c : client) (doc : string) (names : list string) :
  Client.scanForIndexPatterns c doc = inr names ->
  let vals := Result_Array (gjson_Get doc "objects.#.attributes.visState") in
  length names <= length vals
  /\ forall x : string,
       In x names ->
       exists val : Result,
         In val vals
         /\ Result_Exists
              (gjson_Get (strings_Replace (Result_String val) (backslash +:+ dquote) dquote)
                 "params.index_pattern") = true
         /\ x = Result_String
                  (gjson_Get
                     (strings_Replace (Result_String val) (backslash +:+ dquote) dquote)
                     "params.index_pattern").
Proof.
  intros Hscan vals.
  destruct (scanForIndexPatterns_list _ _ _ Hscan) as [Hnodup Hset].
  rewrite scannedNames_spec in Hset. fold vals in Hset.
  assert (Hin : forall x, In x names ->
                          In x (omap index_pattern_of (map Result_String vals))).
  { intros x Hx. apply list_elem_of_In. apply list_elem_of_In in Hx.
    rewrite <- (elem_of_list_to_set (C := gset string)) in Hx.
    rewrite Hset, elem_of_list_to_set in Hx. exact Hx. }
  split.
  - transitivity (length (omap index_pattern_of (map Result_String vals))).
    + apply NoDup_incl_length; [apply NoDup_ListNoDup; exact Hnodup | exact Hin].
    + etransitivity; [apply length_omap_le |]. rewrite length_map. reflexivity.
  - intros x Hx. destruct (index_patterns_found _ _ (Hin x Hx)) as (val & Hval & Hfound).
    exists val. split; [exact Hval |].
    unfold index_pattern_of in Hfound.
    destruct (Result_Exists _); [| discriminate].
    injection Hfound as <-. auto.
Qed.

End ScannerBound.

(** ** The further properties on the scenario *)

Section FurtherOnTheScenario.
Import Scenario.


Lemma export_without_index_patterns_witness :
  Client.scanForIndexPatterns (RT := Cases.rt) c Cases.notes_export = inr []
  /\ Client.export (RT := Cases.rt) c "Notes" (start Cases.rt tt "")
     = (inr Cases.notes_export,
        (Client.getDashboard (RT := Cases.rt) c "n1"
           (Client.searchDashboard (RT := Cases.rt) c (quoted "Notes")
              (start Cases.rt tt "")).2).2).
Proof.
  apply (@export_without_index_patterns Cases.rt (ref_map_range_laws _) c "Notes"
           Cases.notes_export Cases.d_notes (start Cases.rt tt "")
           (Client.searchDashboard (RT := Cases.rt) c (quoted "Notes")
              (start Cases.rt tt "")).2).
  - vm_compute. reflexivity.
  - vm_compute. reflexivity.
  - replace (@Result_Array Cases.rt
               (@gjson_Get Cases.rt Cases.notes_export "objects.#.attributes.visState"))
      with [Some (visState "Notes" [("fontSize", Ref.JNumber "12")])]
      by (vm_compute; reflexivity).
    repeat constructor.
Defined.


Lemma searchDashboard_parse_failure_witness :
  Client.searchDashboard (RT := Cases.rt) c "Broken" (start Cases.rt tt "")
  = (inl ("could not parse dashboard definition: "
          +:+ "json: cannot unmarshal into field id of type string"),
     (http_Do (RT := Cases.rt) (get_request c (Client.searchDashboard_url c "Broken"))
        (start Cases.rt tt "")).2).
Proof.
  apply (@searchDashboard_parse_failure Cases.rt c "Broken" (start Cases.rt tt "") _
           (mkResponse "200 OK" 200
              (mkReadAll (found [sales; Cases.broken; sales_eu]) None))
           [Some sales] [Some sales_eu] (Some Cases.broken)).
  - reflexivity.
  - vm_compute. reflexivity.
  - reflexivity.
  - reflexivity.
  - vm_compute. reflexivity.
  - repeat constructor. exists d_sales. vm_compute. reflexivity.
  - vm_compute. reflexivity.
Defined.

Lemma status_not_ok_witness :
  (Client.getDashboard (RT := rt) c "zzz" (start rt tt "")).1
  = inl ("failed to retrieve dashboard id zzz. Status:404 Not Found. "
         +:+ "Response:Not Found." +:+ newline)
  /\ (Client.getIndexPattern (RT := rt) c "zzz" (start rt tt "")).1
  = inl ("failed to retrieve index-pattern title zzz. Status:404 Not Found. "
         +:+ "Response: Not Found." +:+ newline).
Proof.
  destruct (@status_not_ok rt c "zzz" (start rt tt "")
              (http_Do (RT := rt) (get_request c (Client.getDashboard_url c "zzz"))
                 (start rt tt "")).2
              (mkResponse "404 Not Found" 404 (mkReadAll "Not Found" None))
              ltac:(discriminate)) as (_ & Hfetch & _).
  destruct (@status_not_ok rt c "zzz" (start rt tt "")
              (http_Do (RT := rt) (get_request c (Client.getIndexPattern_url c "zzz"))
                 (start rt tt "")).2
              (mkResponse "404 Not Found" 404 (mkReadAll "Not Found" None))
              ltac:(discriminate)) as (_ & _ & Hlookup).
  split.
  - rewrite Hfetch; [reflexivity | reflexivity | vm_compute; reflexivity].
  - rewrite Hlookup; [reflexivity | reflexivity | vm_compute; reflexivity].
Defined.


Lemma list_failure_witness :
  output (Main.list (RT := rt) g ["zzz"] (start rt tt "")).2 = output (start rt tt "")
  /\ (Main.list (RT := rt) g_anonymous ["Sal"] (start rt tt "")).2 = start rt tt "".
Proof.
  split.
  - apply (@list_failure rt g ["zzz"] (start rt tt "") _
             (Main.mkExitError
                ("failed to search dashboard name zzz. Status:404 Not Found. "
                 +:+ "Response:Not Found." +:+ newline) 2)).
    vm_compute. reflexivity.
  - destruct (@list_failure rt g_anonymous ["Sal"] (start rt tt "")
                (Main.list (RT := rt) g_anonymous ["Sal"] (start rt tt "")).2
                (Main.mkExitError "kibana username not defined" 1)
                ltac:(vm_compute; reflexivity)) as [_ [[_ Hsame] | [Hcode _]]].
    + exact Hsame.
    + discriminate.
Defined.

Lemma scanner_bound_witness :
  length ["metrics-*"; "logs-*"]
  <= length (@Result_Array rt
               (@gjson_Get rt sales_export "objects.#.attributes.visState")).
Proof.
  apply (@scanner_bound rt (ref_map_range_laws _) c sales_export ["metrics-*"; "logs-*"]).
  vm_compute. reflexivity.
Defined.

End FurtherOnTheScenario.
